(** * Alpha Vantage MCP server: tool dispatch and response normalisation

    A shallow embedding of [src/index.ts]: the four request handlers
    ([handleGetTickerOhlcv], [handleGetTickerDividend],
    [handleGetEtfHoldings], [handleGetExchangeRate]) and the dispatcher
    [callToolHandler], over a small model of the JavaScript values the
    handlers manipulate (parsed JSON, [undefined], members inherited from
    the built-in prototypes), with exceptions, the single HTTP request of
    each handler and the calls to [logger.error] made explicit. *)

From Stdlib Require Import String Ascii List Bool Arith Lia DecimalString.
Import ListNotations.
Local Open Scope list_scope.
Local Open Scope string_scope.
Set Warnings "-register-all".

(** ** JavaScript values *)

Module Js.

(** A number is kept by the two observations the handlers can make of it:
    whether it is falsy (zero or NaN) and the text [ToString] gives it. *)
Record JsNumber := mkNumber { numFalsy : bool; numText : string }.

(** Parsed JSON, as [axios] hands it over in [response.data] (a body that
    does not parse is handed over as the raw text, a [JStr]) and as the
    protocol layer hands over the argument bag.  [JObj] lists the own
    properties of the object in the order [Object.keys] reports them, one
    entry per name; a property read takes the first entry of a name.
    Strings are sequences of code units, one [ascii] each. *)
Inductive Json :=
| JNull
| JBool (b : bool)
| JNum (n : JsNumber)
| JStr (s : string)
| JArr (items : list Json)
| JObj (props : list (string * Json)).

(** The built-in prototypes a JSON value (or a built-in function) inherits
    from. *)
Inductive Proto :=
| ObjectProto | FunctionProto | ArrayProto | StringProto | NumberProto
| BooleanProto.

(** What an expression of the handlers can evaluate to: [undefined], a JSON
    value, a built-in function reached through a prototype, or a prototype
    object itself (the value of [__proto__]). *)
Inductive Value :=
| VUndefined
| VJson (j : Json)
| VFunction (name : string)
| VProto (p : Proto).

Coercion VJson : Json >-> Value.

(** Error objects: what [throw] carries in this program. *)
Record JsError := mkError { errName : string; errMessage : string }.

Inductive Outcome (A : Type) :=
| Returned (a : A)
| Threw (e : JsError).
Arguments Returned {A} a.
Arguments Threw {A} e.

Definition obind {A B} (o : Outcome A) (k : A -> Outcome B) : Outcome B :=
  match o with
  | Returned a => k a
  | Threw e => Threw e
  end.

Definition TypeError (msg : string) : JsError := mkError "TypeError" msg.

(** [Error.prototype.toString]. *)
Definition errorToString (e : JsError) : string :=
  if errName e =? "" then errMessage e
  else if errMessage e =? "" then errName e
  else errName e ++ ": " ++ errMessage e.

(** [new Error(x)] where [x] is an error object: the message is
    [ToString(x)]. *)
Definition newErrorFrom (e : JsError) : JsError :=
  mkError "Error" (errorToString e).

(** [new Error(msg)] for a string. *)
Definition newError (msg : string) : JsError := mkError "Error" msg.

(** *** Own properties *)

Fixpoint lookup (k : string) (props : list (string * Json)) : option Json :=
  match props with
  | [] => None
  | (k', v) :: rest => if k' =? k then Some v else lookup k rest
  end.

Definition hasOwn (k : string) (props : list (string * Json)) : bool :=
  match lookup k props with Some _ => true | None => false end.

(** *** Decimal indices *)

Definition natToString (n : nat) : string :=
  NilEmpty.string_of_uint (Nat.to_uint n).

(** The canonical decimal strings: ["0"], ["1"], ..., no sign, no leading
    zero.  Array elements and string characters are the properties under
    these names. *)
Definition parseIndex (k : string) : option nat :=
  match NilEmpty.uint_of_string k with
  | Some u =>
      let n := Nat.of_uint u in
      if natToString n =? k then Some n else None
  | None => None
  end.

Fixpoint nthChar (n : nat) (s : string) : option ascii :=
  match s, n with
  | EmptyString, _ => None
  | String c _, O => Some c
  | String _ r, S m => nthChar m r
  end.

Definition numberOfNat (n : nat) : JsNumber :=
  mkNumber (Nat.eqb n 0) (natToString n).

(** *** Inherited members (ECMAScript 2023 built-ins) *)

Definition members (p : Proto) : list string :=
  match p with
  | ObjectProto =>
      ["constructor"; "__defineGetter__"; "__defineSetter__";
       "hasOwnProperty"; "__lookupGetter__"; "__lookupSetter__";
       "isPrototypeOf"; "propertyIsEnumerable"; "toString"; "valueOf";
       "toLocaleString"]
  | FunctionProto =>
      ["constructor"; "apply"; "bind"; "call"; "toString"]
  | ArrayProto =>
      ["constructor"; "at"; "concat"; "copyWithin"; "fill"; "find";
       "findIndex"; "findLast"; "findLastIndex"; "lastIndexOf"; "pop";
       "push"; "reverse"; "shift"; "unshift"; "slice"; "sort"; "splice";
       "includes"; "indexOf"; "join"; "keys"; "entries"; "values";
       "forEach"; "filter"; "flat"; "flatMap"; "map"; "every"; "some";
       "reduce"; "reduceRight"; "toLocaleString"; "toString"; "toReversed";
       "toSorted"; "toSpliced"; "with"]
  | StringProto =>
      ["constructor"; "anchor"; "at"; "big"; "blink"; "bold"; "charAt";
       "charCodeAt"; "codePointAt"; "concat"; "endsWith"; "fontcolor";
       "fontsize"; "fixed"; "includes"; "indexOf"; "isWellFormed";
       "italics"; "lastIndexOf"; "link"; "localeCompare"; "match";
       "matchAll"; "normalize"; "padEnd"; "padStart"; "repeat"; "replace";
       "replaceAll"; "search"; "slice"; "small"; "split"; "strike"; "sub";
       "substr"; "substring"; "sup"; "startsWith"; "toString";
       "toWellFormed"; "trim"; "trimStart"; "trimLeft"; "trimEnd";
       "trimRight"; "toLocaleLowerCase"; "toLocaleUpperCase";
       "toLowerCase"; "toUpperCase"; "valueOf"]
  | NumberProto =>
      ["constructor"; "toExponential"; "toFixed"; "toPrecision";
       "toString"; "valueOf"; "toLocaleString"]
  | BooleanProto =>
      ["constructor"; "toString"; "valueOf"]
  end.

Definition inList (k : string) (l : list string) : bool :=
  existsb (String.eqb k) l.

(** The prototype of a prototype object: [Object.prototype] for all but
    [Object.prototype] itself, whose prototype is [null]. *)
Definition protoOf (p : Proto) : Value :=
  match p with
  | ObjectProto => VJson JNull
  | _ => VProto ObjectProto
  end.

(** A read of [k] that found no own property on a value whose prototype is
    [p]: the members of [p], then those of [Object.prototype]; the accessor
    [__proto__] gives the prototype itself. *)
Definition inherited (p : Proto) (k : string) : Value :=
  if k =? "__proto__" then VProto p
  else if inList k (members p) then VFunction k
  else if inList k (members ObjectProto) then VFunction k
  else VUndefined.

(** *** Property read [v[k]] for a string [k]

    [undefined] and [null] have no properties: the read throws.  Of the own
    data properties of built-in functions only [name] is modelled; the
    handlers read none of them. *)
Definition getProp (v : Value) (k : string) : Outcome Value :=
  match v with
  | VUndefined =>
      Threw (TypeError
        ("Cannot read properties of undefined (reading '" ++ k ++ "')"))
  | VJson JNull =>
      Threw (TypeError
        ("Cannot read properties of null (reading '" ++ k ++ "')"))
  | VJson (JBool _) => Returned (inherited BooleanProto k)
  | VJson (JNum _) => Returned (inherited NumberProto k)
  | VJson (JStr s) =>
      Returned
        (if k =? "length" then VJson (JNum (numberOfNat (String.length s)))
         else match parseIndex k with
              | Some i =>
                  match nthChar i s with
                  | Some c => VJson (JStr (String c EmptyString))
                  | None => VUndefined
                  end
              | None => inherited StringProto k
              end)
  | VJson (JArr items) =>
      Returned
        (if k =? "length" then VJson (JNum (numberOfNat (List.length items)))
         else match parseIndex k with
              | Some i =>
                  match nth_error items i with
                  | Some x => VJson x
                  | None => VUndefined
                  end
              | None => inherited ArrayProto k
              end)
  | VJson (JObj props) =>
      Returned
        (match lookup k props with
         | Some x => VJson x
         | None => inherited ObjectProto k
         end)
  | VFunction name =>
      Returned
        (if k =? "name" then VJson (JStr name)
         else inherited FunctionProto k)
  | VProto p =>
      Returned
        (if k =? "__proto__" then protoOf p
         else if inList k (members p) then VFunction k
         else if inList k (members ObjectProto) then VFunction k
         else VUndefined)
  end.

(** *** Truthiness, as tested by [!x] *)
Definition truthy (v : Value) : bool :=
  match v with
  | VUndefined => false
  | VJson JNull => false
  | VJson (JBool b) => b
  | VJson (JNum n) => negb (numFalsy n)
  | VJson (JStr s) => negb (s =? "")
  | VJson (JArr _) => true
  | VJson (JObj _) => true
  | VFunction _ => true
  | VProto _ => true
  end.

(** *** [ToString], as applied by template literals and property keys

    A plain object with no own [toString] renders through
    [Object.prototype.toString]; with an own [toString] (never callable in
    parsed JSON) the conversion falls through [valueOf] and throws.  An
    array renders through [Array.prototype.join], which prints [null] as
    the empty string. *)
Definition cannotConvert : JsError :=
  TypeError "Cannot convert object to primitive value".

Fixpoint jsonToString (j : Json) : Outcome string :=
  match j with
  | JNull => Returned "null"
  | JBool b => Returned (if b then "true" else "false")
  | JNum n => Returned (numText n)
  | JStr s => Returned s
  | JArr items =>
      let elem (x : Json) : Outcome string :=
        match x with
        | JNull => Returned ""
        | _ => jsonToString x
        end in
      (fix join (l : list Json) : Outcome string :=
         match l with
         | [] => Returned ""
         | [x] => elem x
         | x :: rest =>
             obind (elem x) (fun s =>
             obind (join rest) (fun r => Returned (s ++ "," ++ r)))
         end) items
  | JObj props =>
      if hasOwn "toString" props then Threw cannotConvert
      else Returned "[object Object]"
  end.

Definition toString (v : Value) : Outcome string :=
  match v with
  | VUndefined => Returned "undefined"
  | VJson j => jsonToString j
  | VFunction name => Returned ("function " ++ name ++ "() { [native code] }")
  | VProto ObjectProto => Returned "[object Object]"
  | VProto FunctionProto => Returned "function () { [native code] }"
  | VProto ArrayProto => Returned ""
  | VProto StringProto => Returned ""
  | VProto NumberProto => Returned "0"
  | VProto BooleanProto => Returned "false"
  end.

(** Property read with a computed key, [v[key]]: the base is checked, then
    the key is converted with [ToString].  On [undefined] and [null] the
    read throws a [TypeError] whatever the key.  Its message is the
    engine's for a string key; for keys of other types engines word it
    in their own way (V8 leaves the key out when it does not convert and
    prints a plain object as [#<Object>]), and nothing below depends on
    that text. *)
Definition getIndex (v key : Value) : Outcome Value :=
  match v with
  | VUndefined | VJson JNull =>
      match toString key with
      | Returned k => getProp v k
      | Threw _ => getProp v ""
      end
  | _ => obind (toString key) (getProp v)
  end.

(** *** [Object.keys] *)
Definition indices (n : nat) : list string := map natToString (seq 0 n).

Definition objectKeys (v : Value) : Outcome (list string) :=
  match v with
  | VUndefined | VJson JNull =>
      Threw (TypeError "Cannot convert undefined or null to object")
  | VJson (JBool _) | VJson (JNum _) => Returned []
  | VJson (JStr s) => Returned (indices (String.length s))
  | VJson (JArr items) => Returned (indices (List.length items))
  | VJson (JObj props) => Returned (map fst props)
  | VFunction _ | VProto _ => Returned []
  end.

(** Element [0] of an array of strings. *)
Definition first (l : list string) : Value :=
  match l with
  | [] => VUndefined
  | k :: _ => VJson (JStr k)
  end.

(** *** Template literals *)
Inductive Part :=
| Lit (s : string)
| Sub (v : Value).

Fixpoint template (parts : list Part) : Outcome string :=
  match parts with
  | [] => Returned ""
  | Lit s :: rest => obind (template rest) (fun r => Returned (s ++ r))
  | Sub v :: rest =>
      obind (toString v) (fun s =>
      obind (template rest) (fun r => Returned (s ++ r)))
  end.

End Js.

Import Js.

(** ** Effects: the upstream API, the logger, exceptions *)

(** The response object [axios.get] resolves with; the handlers read only
    its [data]. *)
Record Response := mkResponse { data : Json }.

(** One call of [axios.get]: the promise resolves with a response or
    rejects with an error object. *)
Inductive FetchResult :=
| Resolved (r : Response)
| Rejected (e : JsError).

(** The upstream service, by requested URL. *)
Definition Upstream := string -> FetchResult.

(** What an invocation does besides computing its result. *)
Inductive Event :=
| HttpGet (url : string)
| LogError (e : JsError).

(** An [async] function body: it reads the upstream, emits events in
    order, and completes by returning (the promise resolves) or by
    throwing (the promise rejects).  [await] is sequencing. *)
Definition M (A : Type) : Type := Upstream -> list Event * Outcome A.

Definition ret {A} (a : A) : M A := fun _ => ([], Returned a).

Definition throw {A} (e : JsError) : M A := fun _ => ([], Threw e).

Definition bind {A B} (m : M A) (k : A -> M B) : M B :=
  fun u =>
    match m u with
    | (t1, Returned a) => let (t2, r) := k a u in ((t1 ++ t2)%list, r)
    | (t1, Threw e) => (t1, Threw e)
    end.

(** [try { m } catch (e) { h e }]. *)
Definition tryCatch {A} (m : M A) (h : JsError -> M A) : M A :=
  fun u =>
    match m u with
    | (t1, Returned a) => (t1, Returned a)
    | (t1, Threw e) => let (t2, r) := h e u in ((t1 ++ t2)%list, r)
    end.

(** A pure evaluation step that may throw. *)
Definition lift {A} (o : Outcome A) : M A := fun _ => ([], o).

Definition axiosGet (url : string) : M Response :=
  fun u =>
    ([HttpGet url],
     match u url with
     | Resolved r => Returned r
     | Rejected e => Threw e
     end).

(** [logger.error(e)]: a line on the error stream. *)
Definition loggerError (e : JsError) : M unit :=
  fun _ => ([LogError e], Returned tt).

Declare Scope js_scope.
Delimit Scope js_scope with js.
Notation "x <- m ;; k" := (bind m (fun x => k))
  (at level 61, m at next level, right associativity) : js_scope.
Notation "m ;;; k" := (bind m (fun _ => k))
  (at level 61, right associativity) : js_scope.
Local Open Scope js_scope.

(** ** Requests and results *)

(** [req.params]: the tool name, and the argument bag, which the protocol
    allows a caller to leave out. *)
Record Params := mkParams {
  name : string;
  arguments : option (list (string * Json))
}.

Record Request := mkRequest { params : Params }.

Record ContentItem := mkContent { type : string; text : string }.

(** The envelope every tool answers with.  The success literals of the
    source carry no [isError] key: [None]. *)
Record ToolResult := mkResult {
  content : list ContentItem;
  isError : option bool
}.

Definition textResult (s : string) : ToolResult :=
  mkResult [mkContent "text" s] None.

Definition errorResult (s : string) : ToolResult :=
  mkResult [mkContent "text" s] (Some true).

(** [const { first, ... } = req.params.arguments]: destructuring
    [undefined] throws; otherwise each name is an ordinary property
    read. *)
Definition argumentBag (req : Request) (first : string) : Outcome Value :=
  match arguments (params req) with
  | None =>
      Threw (TypeError ("Cannot destructure property '" ++ first ++
                        "' of 'req.params.arguments' as it is undefined."))
  | Some bag => Returned (VJson (JObj bag))
  end.

(** [v === "s"]. *)
Definition strictEqStr (v : Value) (s : string) : bool :=
  match v with
  | VJson (JStr t) => t =? s
  | _ => false
  end.

Definition str (s : string) : Value := VJson (JStr s).

(** ** The OHLCV handler (index.ts, lines 168-248) *)

Definition ohlcvUrl (ticker : Value) (apiKey : string) : Outcome string :=
  template
    [Lit "https://www.alphavantage.co/query?function=TIME_SERIES_DAILY&symbol=";
     Sub ticker; Lit "&outputsize=full&apikey="; Sub (str apiKey)].

(** Lines 182-185: the empty date stands for the first key of the series. *)
Definition resolveActualDate (date : Value) (response : Response)
  : Outcome Value :=
  if strictEqStr date "" then
    obind (getProp (data response) "Time Series (Daily)") (fun series =>
    obind (objectKeys series) (fun keys =>
    Returned (first keys)))
  else Returned date.

(** Lines 207-226: the [switch] over [infoType]. *)
Definition selectPrice (infoType openPrice highPrice lowPrice closePrice volume : Value)
  : Outcome Value :=
  if strictEqStr infoType "open" then Returned openPrice
  else if strictEqStr infoType "high" then Returned highPrice
  else if strictEqStr infoType "low" then Returned lowPrice
  else if strictEqStr infoType "close" then Returned closePrice
  else if strictEqStr infoType "volume" then Returned volume
  else
    obind (template [Lit "Invalid infoType: "; Sub infoType]) (fun msg =>
    Threw (newError msg)).

(** Lines 172-180, shared in shape by three handlers: the request, with
    the URL built inside the inner [try]; whatever is thrown there is
    logged and rethrown wrapped in a fresh [Error]. *)
Definition fetch (url : Outcome string) : M Response :=
  tryCatch
    (u <- lift url ;; axiosGet u)
    (fun e => loggerError e ;;; throw (newErrorFrom e)).

(** Lines 172-235: the body of the outer [try]. *)
Definition ohlcvTry (ticker infoType date : Value) (apiKey : string)
  : M ToolResult :=
  response <- fetch (ohlcvUrl ticker apiKey) ;;
  actualDate <- lift (resolveActualDate date response) ;;
  series <- lift (getProp (data response) "Time Series (Daily)") ;;
  ohlcv <- lift (getIndex series actualDate) ;;
  if negb (truthy ohlcv) then
    msg <- lift (template [Lit "No data found for "; Sub ticker; Lit " on ";
                           Sub actualDate; Lit "."]) ;;
    ret (errorResult msg)
  else
    openPrice <- lift (getProp ohlcv "1. open") ;;
    highPrice <- lift (getProp ohlcv "2. high") ;;
    lowPrice <- lift (getProp ohlcv "3. low") ;;
    closePrice <- lift (getProp ohlcv "4. close") ;;
    volume <- lift (getProp ohlcv "5. volume") ;;
    price <- lift (selectPrice infoType openPrice highPrice lowPrice
                               closePrice volume) ;;
    msg <- lift (template [Lit "The "; Sub infoType; Lit " for "; Sub ticker;
                           Lit " on "; Sub actualDate; Lit " is "; Sub price]) ;;
    ret (textResult msg).

(** Lines 236-247: the outer [catch]. *)
Definition ohlcvCatch (ticker infoType : Value) (error : JsError)
  : M ToolResult :=
  loggerError error ;;;
  msg <- lift (template [Lit "Failed to get the "; Sub infoType;
                         Lit " price for "; Sub ticker; Lit ". Error: ";
                         Sub (str (errMessage error))]) ;;
  ret (errorResult msg).

Definition ohlcvWith (ticker infoType date : Value) (apiKey : string)
  : M ToolResult :=
  tryCatch (ohlcvTry ticker infoType date apiKey) (ohlcvCatch ticker infoType).

Definition handleGetTickerOhlcv (req : Request) (apiKey : string)
  : M ToolResult :=
  bag <- lift (argumentBag req "ticker") ;;
  ticker <- lift (getProp bag "ticker") ;;
  infoType <- lift (getProp bag "infoType") ;;
  date <- lift (getProp bag "date") ;;
  ohlcvWith ticker infoType date apiKey.

(** ** The dividend handler (lines 250-301) *)

Definition dividendUrl (ticker : Value) (apiKey : string) : Outcome string :=
  template
    [Lit "https://www.alphavantage.co/query?function=DIVIDENDS&symbol=";
     Sub ticker; Lit "&apikey="; Sub (str apiKey)].

(** [history.map(f)]: only an array has a callable [map]; on any other
    value the member is [undefined] or a JSON value, and calling it
    throws. *)
Fixpoint mapItems (f : Json -> Outcome string) (items : list Json)
  : Outcome (list string) :=
  match items with
  | [] => Returned []
  | x :: rest =>
      obind (f x) (fun s =>
      obind (mapItems f rest) (fun r => Returned (s :: r)))
  end.

Definition arrayMap (subject : string) (v : Value)
    (f : Json -> Outcome string) : Outcome (list string) :=
  obind (getProp v "map") (fun member =>
  match v, member with
  | VJson (JArr items), VFunction _ => mapItems f items
  | VProto ArrayProto, VFunction _ => Returned []
  | _, _ => Threw (TypeError (subject ++ ".map is not a function"))
  end).

(** [lines.join("\n")] on an array of strings. *)
Definition newline : string := String (ascii_of_nat 10) EmptyString.

Definition joinLines (lines : list string) : string :=
  String.concat newline lines.

Definition dividendLine (item : Json) : Outcome string :=
  obind (getProp item "ex_dividend_date") (fun d =>
  obind (getProp item "amount") (fun a =>
  template [Lit "Ex-Dividend Date: "; Sub d; Lit ", Amount: "; Sub a])).

Definition dividendTry (ticker : Value) (apiKey : string) : M ToolResult :=
  response <- fetch (dividendUrl ticker apiKey) ;;
  dividendHistory <- lift (getProp (data response) "data") ;;
  if negb (truthy dividendHistory) then
    msg <- lift (template [Lit "No dividend data found for "; Sub ticker;
                           Lit "."]) ;;
    ret (errorResult msg)
  else
    lines <- lift (arrayMap "dividendHistory" dividendHistory dividendLine) ;;
    msg <- lift (template [Lit "Dividend history for "; Sub ticker; Lit ":";
                           Lit newline; Sub (str (joinLines lines))]) ;;
    ret (textResult msg).

Definition dividendCatch (ticker : Value) (error : JsError) : M ToolResult :=
  loggerError error ;;;
  msg <- lift (template [Lit "Failed to get the dividend data for ";
                         Sub ticker; Lit ". Error: ";
                         Sub (str (errMessage error))]) ;;
  ret (errorResult msg).

Definition dividendWith (ticker : Value) (apiKey : string) : M ToolResult :=
  tryCatch (dividendTry ticker apiKey) (dividendCatch ticker).

Definition handleGetTickerDividend (req : Request) (apiKey : string)
  : M ToolResult :=
  bag <- lift (argumentBag req "ticker") ;;
  ticker <- lift (getProp bag "ticker") ;;
  dividendWith ticker apiKey.

(** ** The ETF holdings handler (lines 303-355) *)

Definition holdingsUrl (ticker : Value) (apiKey : string) : Outcome string :=
  template
    [Lit "https://www.alphavantage.co/query?function=ETF_PROFILE&symbol=";
     Sub ticker; Lit "&apikey="; Sub (str apiKey)].

Definition holdingLine (item : Json) : Outcome string :=
  obind (getProp item "description") (fun d =>
  obind (getProp item "symbol") (fun s =>
  obind (getProp item "weight") (fun w =>
  template [Lit "Holding: "; Sub d; Lit " ("; Sub s; Lit "), Weight: ";
            Sub w]))).

Definition holdingsTry (ticker : Value) (apiKey : string) : M ToolResult :=
  response <- fetch (holdingsUrl ticker apiKey) ;;
  holdingsData <- lift (getProp (data response) "holdings") ;;
  if negb (truthy holdingsData) then
    msg <- lift (template [Lit "No holdings data found for "; Sub ticker;
                           Lit "."]) ;;
    ret (errorResult msg)
  else
    lines <- lift (arrayMap "holdingsData" holdingsData holdingLine) ;;
    msg <- lift (template [Lit "Holdings for "; Sub ticker; Lit ":";
                           Lit newline; Sub (str (joinLines lines))]) ;;
    ret (textResult msg).

Definition holdingsCatch (ticker : Value) (error : JsError) : M ToolResult :=
  loggerError error ;;;
  msg <- lift (template [Lit "Failed to get the holdings data for ";
                         Sub ticker; Lit ". Error: ";
                         Sub (str (errMessage error))]) ;;
  ret (errorResult msg).

Definition holdingsWith (ticker : Value) (apiKey : string) : M ToolResult :=
  tryCatch (holdingsTry ticker apiKey) (holdingsCatch ticker).

Definition handleGetEtfHoldings (req : Request) (apiKey : string)
  : M ToolResult :=
  bag <- lift (argumentBag req "ticker") ;;
  ticker <- lift (getProp bag "ticker") ;;
  holdingsWith ticker apiKey.

(** ** The exchange-rate handler (lines 357-401)

    There is no inner [try] here: a rejected request reaches the outer
    [catch] as it is. *)

Definition exchangeUrl (fromCurrency toCurrency : Value) (apiKey : string)
  : Outcome string :=
  template
    [Lit "https://www.alphavantage.co/query?function=CURRENCY_EXCHANGE_RATE&from_currency=";
     Sub fromCurrency; Lit "&to_currency="; Sub toCurrency; Lit "&apikey=";
     Sub (str apiKey)].

Definition exchangeTry (fromCurrency toCurrency : Value) (apiKey : string)
  : M ToolResult :=
  url <- lift (exchangeUrl fromCurrency toCurrency apiKey) ;;
  response <- axiosGet url ;;
  priceData <- lift (getProp (data response)
                             "Realtime Currency Exchange Rate") ;;
  if negb (truthy priceData) then
    msg <- lift (template [Lit "Could not retrieve exchange rate for ";
                           Sub fromCurrency; Lit " to "; Sub toCurrency;
                           Lit "."]) ;;
    ret (errorResult msg)
  else
    exchangeRate <- lift (getProp priceData "5. Exchange Rate") ;;
    msg <- lift (template [Lit "The exchange rate from "; Sub fromCurrency;
                           Lit " to "; Sub toCurrency; Lit " is ";
                           Sub exchangeRate]) ;;
    ret (textResult msg).

Definition exchangeCatch (fromCurrency toCurrency : Value) (error : JsError)
  : M ToolResult :=
  loggerError error ;;;
  msg <- lift (template [Lit "Failed to get the exchange rate for ";
                         Sub fromCurrency; Lit " to "; Sub toCurrency;
                         Lit ". Error: "; Sub (str (errMessage error))]) ;;
  ret (errorResult msg).

Definition exchangeWith (fromCurrency toCurrency : Value) (apiKey : string)
  : M ToolResult :=
  tryCatch (exchangeTry fromCurrency toCurrency apiKey)
           (exchangeCatch fromCurrency toCurrency).

Definition handleGetExchangeRate (req : Request) (apiKey : string)
  : M ToolResult :=
  bag <- lift (argumentBag req "fromCurrency") ;;
  fromCurrency <- lift (getProp bag "fromCurrency") ;;
  toCurrency <- lift (getProp bag "toCurrency") ;;
  exchangeWith fromCurrency toCurrency apiKey.

(** ** The dispatcher (lines 403-432)

    [env] is [process.env.ALPHAVANTAGE_API_KEY]: a string, or [undefined]
    when the variable is not set.  [!apiKey] holds for [undefined] and for
    the empty string. *)

Definition keyMissing (env : option string) : bool :=
  match env with
  | None => true
  | Some k => k =? ""
  end.

Definition keyOf (env : option string) : string :=
  match env with
  | None => ""
  | Some k => k
  end.

Definition callToolHandler (env : option string) (req : Request)
  : M ToolResult :=
  if keyMissing env then
    throw (newError "ALPHAVANTAGE_API_KEY is not set")
  else
    let apiKey := keyOf env in
    let tool := name (params req) in
    if tool =? "get_ticker_ohlcv" then handleGetTickerOhlcv req apiKey
    else if tool =? "get_ticker_dividend" then handleGetTickerDividend req apiKey
    else if tool =? "get_etf_holdings" then handleGetEtfHoldings req apiKey
    else if tool =? "get_exchange_rate" then handleGetExchangeRate req apiKey
    else
      msg <- lift (template [Lit "Tool "; Sub (str tool); Lit " not found."]) ;;
      ret (errorResult msg).

(** The handlers by tool, and the names under which the dispatcher
    reaches them. *)
Inductive Tool := Ohlcv | Dividend | Holdings | ExchangeRate.

Definition toolName (t : Tool) : string :=
  match t with
  | Ohlcv => "get_ticker_ohlcv"
  | Dividend => "get_ticker_dividend"
  | Holdings => "get_etf_holdings"
  | ExchangeRate => "get_exchange_rate"
  end.

Definition handlerOf (t : Tool) : Request -> string -> M ToolResult :=
  match t with
  | Ohlcv => handleGetTickerOhlcv
  | Dividend => handleGetTickerDividend
  | Holdings => handleGetEtfHoldings
  | ExchangeRate => handleGetExchangeRate
  end.

(** The arguments a handler's [catch] block prints. *)
Definition printedOnFailure (t : Tool) : list string :=
  match t with
  | Ohlcv => ["infoType"; "ticker"]
  | Dividend => ["ticker"]
  | Holdings => ["ticker"]
  | ExchangeRate => ["fromCurrency"; "toCurrency"]
  end.

(** ** Vocabulary for the statements *)

(** The request carries the string [v] under the argument name [k]. *)
Definition stringArgument (req : Request) (k v : string) : Prop :=
  exists bag,
    arguments (params req) = Some bag /\ lookup k bag = Some (JStr v).

(** The argument of name [k] as the handler reads it from a bag. *)
Definition argument (bag : list (string * Json)) (k : string) : Value :=
  match lookup k bag with
  | Some x => VJson x
  | None => inherited ObjectProto k
  end.

(** The value converts to a string without throwing. *)
Definition renders (v : Value) : Prop := exists s, toString v = Returned s.

(** The record field that the [switch] of lines 201-226 selects for a
    recognised [infoType]. *)
Definition fieldOf (infoType : string) : option string :=
  if infoType =? "open" then Some "1. open"
  else if infoType =? "high" then Some "2. high"
  else if infoType =? "low" then Some "3. low"
  else if infoType =? "close" then Some "4. close"
  else if infoType =? "volume" then Some "5. volume"
  else None.

(** The URLs requested for string arguments. *)
Definition ohlcvUrlOf (ticker apiKey : string) : string :=
  "https://www.alphavantage.co/query?function=TIME_SERIES_DAILY&symbol="
  ++ ticker ++ "&outputsize=full&apikey=" ++ apiKey.

Definition dividendUrlOf (ticker apiKey : string) : string :=
  "https://www.alphavantage.co/query?function=DIVIDENDS&symbol="
  ++ ticker ++ "&apikey=" ++ apiKey.

Definition exchangeUrlOf (fromCurrency toCurrency apiKey : string) : string :=
  "https://www.alphavantage.co/query?function=CURRENCY_EXCHANGE_RATE&from_currency="
  ++ fromCurrency ++ "&to_currency=" ++ toCurrency ++ "&apikey=" ++ apiKey.

(** The pattern the tool definition declares for [date] (lines 50 and
    132): [^\d{4}-\d{2}-\d{2}$]. *)
Definition isDigit (c : ascii) : bool :=
  ((48 <=? nat_of_ascii c) && (nat_of_ascii c <=? 57))%nat.

Definition isDash (c : ascii) : bool := Ascii.eqb c "-".

Definition matchesDatePattern (s : string) : bool :=
  match list_ascii_of_string s with
  | [y1; y2; y3; y4; s1; m1; m2; s2; d1; d2] =>
      isDigit y1 && isDigit y2 && isDigit y3 && isDigit y4 && isDash s1
      && isDigit m1 && isDigit m2 && isDash s2 && isDigit d1 && isDigit d2
  | _ => false
  end.

(** One rendered dividend line, and the JSON records it comes from. *)
Definition dividendLineOf (date amount : string) : string :=
  "Ex-Dividend Date: " ++ date ++ ", Amount: " ++ amount.

Definition isDividendRecord (item : Json) (r : string * string) : Prop :=
  exists props,
    item = JObj props
    /\ lookup "ex_dividend_date" props = Some (JStr (fst r))
    /\ lookup "amount" props = Some (JStr (snd r)).

(** The [try] block and the [catch] block of each handler, at the
    arguments read from a bag. *)
Definition tryOf (tool : Tool) (bag : list (string * Json)) (apiKey : string)
  : M ToolResult :=
  match tool with
  | Ohlcv => ohlcvTry (argument bag "ticker") (argument bag "infoType")
                      (argument bag "date") apiKey
  | Dividend => dividendTry (argument bag "ticker") apiKey
  | Holdings => holdingsTry (argument bag "ticker") apiKey
  | ExchangeRate => exchangeTry (argument bag "fromCurrency")
                                (argument bag "toCurrency") apiKey
  end.

Definition catchOf (tool : Tool) (bag : list (string * Json))
  : JsError -> M ToolResult :=
  match tool with
  | Ohlcv => ohlcvCatch (argument bag "ticker") (argument bag "infoType")
  | Dividend => dividendCatch (argument bag "ticker")
  | Holdings => holdingsCatch (argument bag "ticker")
  | ExchangeRate => exchangeCatch (argument bag "fromCurrency")
                                  (argument bag "toCurrency")
  end.

(** A result is one of the two literals of the source: one text item,
    flagged as an error or not flagged. *)
Definition isEnvelope (r : ToolResult) : Prop :=
  exists message, r = errorResult message \/ r = textResult message.

Definition Enveloped (m : M ToolResult) : Prop :=
  forall u t r, m u = (t, Returned r) -> isEnvelope r.

(** ** The tool registry (lines 32-111 and 122-166) *)

(** The static definitions, as the server announces them in its
    capabilities. *)
Module Registry.

Record Property := mkProperty {
  type : string;
  description : string;
  enum : option (list string);
  pattern : option string
}.

Record InputSchema := mkSchema {
  schemaType : string;
  properties : list (string * Property);
  required : list string
}.

Record ToolDefinition := mkTool {
  name : string;
  summary : string;
  inputSchema : InputSchema
}.

Definition getTickerOhlcvDefinition : ToolDefinition :=
  mkTool "get_ticker_ohlcv"
    "Get specific ticker OHLCV data (Open, High, Low, Close, Volume)"
    (mkSchema "object"
       [("ticker",
         mkProperty "string"
           "The ticker symbol to get the price for (e.g. AAPL)" None None);
        ("infoType",
         mkProperty "string"
           "The type of ticker information to get (open, close, high, low, volume)"
           (Some ["open"; "close"; "high"; "low"; "volume"]) None);
        ("date",
         mkProperty "string"
           "The date for which to get the OHLCV data (YYYY-MM-DD)" None
           (Some "^\d{4}-\d{2}-\d{2}$"))]
       ["ticker"; "infoType"; "date"]).

Definition getTickerDividendDefinition : ToolDefinition :=
  mkTool "get_ticker_dividend" "Get dividend data for a specific ticker"
    (mkSchema "object"
       [("ticker",
         mkProperty "string"
           "The ticker symbol to get the dividend data for (e.g. AAPL)"
           None None)]
       ["ticker"]).

Definition getEtfHoldingsDefinition : ToolDefinition :=
  mkTool "get_etf_holdings" "Get the holdings data for a specific ETF"
    (mkSchema "object"
       [("ticker",
         mkProperty "string" "The ticker symbol of the ETF (e.g. SPY)"
           None None)]
       ["ticker"]).

Definition getExchangeRateDefinition : ToolDefinition :=
  mkTool "get_exchange_rate"
    "Get the exchange rate between two currencies (fiat or crypto)"
    (mkSchema "object"
       [("fromCurrency",
         mkProperty "string" "The currency to convert from (e.g. USD, BTC)"
           None None);
        ("toCurrency",
         mkProperty "string" "The currency to convert to (e.g. EUR, ETH)"
           None None)]
       ["fromCurrency"; "toCurrency"]).

(** [toolDefinitions]: an object keyed by the names of the definitions. *)
Definition toolDefinitions : list (string * ToolDefinition) :=
  [(name getTickerOhlcvDefinition, getTickerOhlcvDefinition);
   (name getTickerDividendDefinition, getTickerDividendDefinition);
   (name getEtfHoldingsDefinition, getEtfHoldingsDefinition);
   (name getExchangeRateDefinition, getExchangeRateDefinition)].

(** [toolDefinitions[key]]. *)
Fixpoint find (key : string) (defs : list (string * ToolDefinition))
  : option ToolDefinition :=
  match defs with
  | [] => None
  | (k, d) :: rest => if k =? key then Some d else find key rest
  end.

End Registry.

(** What [listToolsHandler] answers: for each tool its name, its
    description and the object shape handed to the schema converter (the
    conversion itself is the library's). *)
Module Listing.

Inductive Shape :=
| zString
| zEnum (values : list string)
| zRegex (pattern : string).

Record Field := mkField { shape : Shape; describe : string }.

Record Tool := mkTool {
  name : string;
  description : string;
  fields : list (string * Field)
}.

Definition tools : list Tool :=
  [mkTool "get_ticker_ohlcv"
     "Get specific ticker OHLCV data (Open, High, Low, Close, Volume)"
     [("ticker",
       mkField zString "The ticker symbol to get the price for (e.g. AAPL)");
      ("infoType",
       mkField (zEnum ["open"; "close"; "high"; "low"; "volume"])
         "The type of ticker information to get (open, close, high, low, volume)");
      ("date",
       mkField (zRegex "^\d{4}-\d{2}-\d{2}$")
         "The date for which to get the OHLCV data (YYYY-MM-DD)")];
   mkTool "get_ticker_dividend" "Get dividend data for a specific ticker"
     [("ticker",
       mkField zString "The ticker symbol of the ETF (e.g. AAPL)")];
   mkTool "get_etf_holdings" "Get the holdings data for a specific ETF"
     [("ticker",
       mkField zString "The ticker symbol of the ETF (e.g. SPY)")];
   mkTool "get_exchange_rate"
     "Get the exchange rate between two currencies (fiat or crypto)"
     [("fromCurrency",
       mkField zString "The currency to convert from (e.g. USD, BTC)");
      ("toCurrency",
       mkField zString "The currency to convert to (e.g. EUR, ETH)")]].

End Listing.

(** ** More vocabulary *)

Definition holdingsUrlOf (ticker apiKey : string) : string :=
  "https://www.alphavantage.co/query?function=ETF_PROFILE&symbol="
  ++ ticker ++ "&apikey=" ++ apiKey.

(** One rendered holding line, and the JSON records it comes from. *)
Definition holdingLineOf (r : string * string * string) : string :=
  "Holding: " ++ fst (fst r) ++ " (" ++ snd (fst r) ++ "), Weight: "
  ++ snd r.

Definition isHoldingRecord (item : Json) (r : string * string * string)
  : Prop :=
  exists props,
    item = JObj props
    /\ lookup "description" props = Some (JStr (fst (fst r)))
    /\ lookup "symbol" props = Some (JStr (snd (fst r)))
    /\ lookup "weight" props = Some (JStr (snd r)).

(** The request each [try] block starts with. *)
Definition requestOf (tool : Tool) (bag : list (string * Json))
    (apiKey : string) : M Response :=
  match tool with
  | Ohlcv => fetch (ohlcvUrl (argument bag "ticker") apiKey)
  | Dividend => fetch (dividendUrl (argument bag "ticker") apiKey)
  | Holdings => fetch (holdingsUrl (argument bag "ticker") apiKey)
  | ExchangeRate =>
      url <- lift (exchangeUrl (argument bag "fromCurrency")
                               (argument bag "toCurrency") apiKey) ;;
      axiosGet url
  end.

(** A computation that emits nothing and does not consult the upstream. *)
Definition Pure {A} (m : M A) : Prop :=
  forall u1 u2, m u1 = ([], snd (m u2)).

Definition isGet (ev : Event) : bool :=
  match ev with
  | HttpGet _ => true
  | LogError _ => false
  end.

(** The number of HTTP requests in a trace. *)
Definition requests (trace : list Event) : nat :=
  List.length (filter isGet trace).

Definition logged (trace : list Event) : Prop :=
  exists e, In (LogError e) trace.

Definition allStrings (bag : list (string * Json)) : Prop :=
  Forall (fun kv => exists s, snd kv = JStr s) bag.

(** What the request of a handler can do: fail before anything is sent,
    resolve, or be rejected; log lines accompany failures only. *)
Inductive RequestRun (u : Upstream) : list Event * Outcome Response -> Prop :=
| run_bad_url logs e :
    Forall (fun ev => isGet ev = false) logs ->
    RequestRun u (logs, Threw e)
| run_resolved url r :
    u url = Resolved r ->
    RequestRun u ([HttpGet url], Returned r)
| run_rejected url e logs e' :
    u url = Rejected e ->
    Forall (fun ev => isGet ev = false) logs ->
    RequestRun u (HttpGet url :: logs, Threw e').

(** What an invocation can do: throw before anything happens, answer from
    the [try] block after its one request, or go through a [catch]
    block. *)
Inductive HandlerRun (u : Upstream)
  : list Event * Outcome ToolResult -> Prop :=
| run_no_arguments e :
    HandlerRun u ([], Threw e)
| run_answered url r result :
    u url = Resolved r -> isEnvelope result ->
    HandlerRun u ([HttpGet url], Returned result)
| run_caught trace e o :
    requests trace <= 1 -> In (LogError e) trace ->
    (forall r, o = Returned r -> exists message, r = errorResult message) ->
    HandlerRun u (trace, o).

(** An upstream that rejects every request. *)
Definition nowhere : Upstream := fun _ => Rejected (mkError "" "").

(** ** Sample data *)

Module Sample.

Definition request (tool : string) (bag : list (string * Json)) : Request :=
  mkRequest (mkParams tool (Some bag)).

Definition ohlcv (infoType date : string) : Request :=
  request "get_ticker_ohlcv"
    [("ticker", JStr "AAPL"); ("infoType", JStr infoType);
     ("date", JStr date)].

Definition dividend : Request :=
  request "get_ticker_dividend" [("ticker", JStr "AAPL")].

Definition exchange : Request :=
  request "get_exchange_rate"
    [("fromCurrency", JStr "USD"); ("toCurrency", JStr "EUR")].

Definition day : list (string * Json) :=
  [("1. open", JStr "187.15"); ("2. high", JStr "188.44");
   ("3. low", JStr "183.89"); ("4. close", JStr "185.64");
   ("5. volume", JStr "82488700")].

Definition series : list (string * Json) :=
  [("2024-01-02", JObj day); ("2023-12-29", JObj day)].

Definition daily : Response :=
  mkResponse (JObj [("Meta Data", JObj [("2. Symbol", JStr "AAPL")]);
                    ("Time Series (Daily)", JObj series)]).

Definition payouts : list Json :=
  [JObj [("ex_dividend_date", JStr "2024-02-09"); ("amount", JStr "0.24")];
   JObj [("ex_dividend_date", JStr "2023-11-10"); ("amount", JStr "0.24")]].

Definition dividends : Response :=
  mkResponse (JObj [("symbol", JStr "AAPL"); ("data", JArr payouts)]).

(** The provider's answer when the call quota is used up. *)
Definition note : Response :=
  mkResponse (JObj [("Information", JStr "API rate limit reached")]).

(** An exchange-rate object without its rate. *)
Definition rateless : Response :=
  mkResponse (JObj [("Realtime Currency Exchange Rate",
                     JObj [("1. From_Currency Code", JStr "USD");
                           ("3. To_Currency Code", JStr "EUR")])]).

Definition serving (r : Response) : Upstream := fun _ => Resolved r.

Definition offline : Upstream :=
  fun _ => Rejected (mkError "AxiosError" "Network Error").

(** A call that names a tool and leaves the arguments out. *)
Definition bare : Request := mkRequest (mkParams "get_ticker_dividend" None).

(** A ticker that is an object carrying its own [toString] datum. *)
Definition opaqueTicker : Request :=
  request "get_ticker_dividend" [("ticker", JObj [("toString", JNull)])].

End Sample.

(** More sample data. *)
Module Fixture.

Definition holdings : Request :=
  Sample.request "get_etf_holdings" [("ticker", JStr "SPY")].

Definition positions : list Json :=
  [JObj [("symbol", JStr "MSFT"); ("description", JStr "MICROSOFT CORP");
         ("weight", JStr "0.0712")];
   JObj [("symbol", JStr "AAPL"); ("description", JStr "APPLE INC");
         ("weight", JStr "0.0698")]].

Definition profile : Response :=
  mkResponse (JObj [("net_assets", JStr "403000000000");
                    ("holdings", JArr positions)]).

Definition rate : Response :=
  mkResponse (JObj [("Realtime Currency Exchange Rate",
                     JObj [("1. From_Currency Code", JStr "USD");
                           ("3. To_Currency Code", JStr "EUR");
                           ("5. Exchange Rate", JStr "0.9123")])]).

(** A series whose record for a day is [null], and an empty series. *)
Definition holed : Response :=
  mkResponse (JObj [("Time Series (Daily)",
                     JObj [("2024-01-02", JNull)])]).

Definition blank : Response :=
  mkResponse (JObj [("Time Series (Daily)", JObj [])]).

(** A record without its closing price. *)
Definition partial : Response :=
  mkResponse (JObj [("Time Series (Daily)",
                     JObj [("2024-01-02",
                            JObj [("1. open", JStr "187.15")])])]).

(** A payload that is an object where an array is expected. *)
Definition keyed : Response :=
  mkResponse (JObj [("data", JObj [("2024-02-09", JStr "0.24")]);
                    ("holdings", JStr "n/a")]).

(** A payload whose entries are [null]. *)
Definition nulls : Response :=
  mkResponse (JObj [("data", JNull); ("holdings", JNull);
                    ("Realtime Currency Exchange Rate", JNull)]).

Definition refused : JsError := mkError "AxiosError" "Network Error".

(** An [infoType] that is an object carrying its own [toString] datum. *)
Definition opaqueInfoType : Request :=
  Sample.request "get_ticker_ohlcv"
    [("ticker", JStr "AAPL"); ("infoType", JObj [("toString", JNull)]);
     ("date", JStr "2024-01-02")].

(** A bag with more entries than the tool declares. *)
Definition padded : Request :=
  Sample.request "get_ticker_dividend"
    [("ticker", JStr "AAPL"); ("date", JStr "2024-01-02");
     ("verbose", JBool true)].

End Fixture.

(** * Properties *)

(** ** Strings *)

Lemma append_empty (s : string) : s ++ "" = s.
Proof. induction s; simpl; congruence. Qed.

Lemma append_assoc (a b c : string) : (a ++ b) ++ c = a ++ b ++ c.
Proof. induction a; simpl; congruence. Qed.

(** ** Sequencing and [try]/[catch] *)

Section Effects.

Context {A B : Type}.

Lemma bind_lift_returned (a : A) (k : A -> M B) (u : Upstream) :
  bind (lift (Returned a)) k u = k a u.
Proof. unfold bind, lift. simpl. destruct (k a u). reflexivity. Qed.

Lemma bind_lift_threw (e : JsError) (k : A -> M B) (u : Upstream) :
  bind (lift (Threw e)) k u = ([], Threw e).
Proof. reflexivity. Qed.

Lemma bind_returned (m : M A) (k : A -> M B) (u : Upstream) t a :
  m u = (t, Returned a) ->
  bind m k u = ((t ++ fst (k a u))%list, snd (k a u)).
Proof. intros H. unfold bind. rewrite H. destruct (k a u). reflexivity. Qed.

Lemma tryCatch_returned (m : M A) (h : JsError -> M A) (u : Upstream) t a :
  m u = (t, Returned a) -> tryCatch m h u = (t, Returned a).
Proof. intros H. unfold tryCatch. rewrite H. reflexivity. Qed.

Lemma tryCatch_threw (m : M A) (h : JsError -> M A) (u : Upstream) t e :
  m u = (t, Threw e) ->
  tryCatch m h u = ((t ++ fst (h e u))%list, snd (h e u)).
Proof. intros H. unfold tryCatch. rewrite H. destruct (h e u). reflexivity. Qed.

End Effects.

(** ** Reading arguments and fetching *)

Lemma getProp_object (props : list (string * Json)) (k : string) (x : Json) :
  lookup k props = Some x ->
  getProp (VJson (JObj props)) k = Returned (VJson x).
Proof. intros H. simpl. rewrite H. reflexivity. Qed.

Lemma strings_render (s : string) : renders (str s).
Proof. exists s. reflexivity. Qed.

Lemma fetch_resolved (url : Outcome string) (s : string) (u : Upstream) r :
  url = Returned s -> u s = Resolved r ->
  fetch url u = ([HttpGet s], Returned r).
Proof.
  intros -> H. unfold fetch, tryCatch, bind, lift, axiosGet. simpl.
  rewrite H. reflexivity.
Qed.

(** A rejected request is logged and reaches the outer [catch] wrapped:
    its message there is the rendering of the original error. *)
Lemma fetch_rejected (url : Outcome string) (s : string) (u : Upstream) e :
  url = Returned s -> u s = Rejected e ->
  fetch url u = ([HttpGet s; LogError e], Threw (newErrorFrom e)).
Proof.
  intros -> H. unfold fetch, tryCatch, bind, lift, axiosGet. simpl.
  rewrite H. reflexivity.
Qed.

Lemma ohlcvUrl_string (t key : string) :
  ohlcvUrl (str t) key = Returned (ohlcvUrlOf t key).
Proof.
  unfold ohlcvUrl, ohlcvUrlOf. simpl. rewrite append_empty. reflexivity.
Qed.

Lemma dividendUrl_string (t key : string) :
  dividendUrl (str t) key = Returned (dividendUrlOf t key).
Proof.
  unfold dividendUrl, dividendUrlOf. simpl. rewrite append_empty. reflexivity.
Qed.

Lemma exchangeUrl_string (f t key : string) :
  exchangeUrl (str f) (str t) key = Returned (exchangeUrlOf f t key).
Proof.
  unfold exchangeUrl, exchangeUrlOf. simpl. rewrite append_empty. reflexivity.
Qed.

Ltac same_bag :=
  repeat match goal with
         | H : stringArgument _ _ _ |- _ =>
             let bag := fresh "bag" in
             let Hb := fresh "Hbag" in
             let Hk := fresh "Hkey" in
             destruct H as (bag & Hb & Hk)
         end;
  repeat match goal with
         | H1 : arguments ?p = Some ?b1, H2 : arguments ?p = Some ?b2 |- _ =>
             rewrite H1 in H2; inversion H2; subst b2; clear H2
         end.

Ltac read_arguments :=
  match goal with
  | Hb : arguments _ = Some _ |- _ =>
      unfold handleGetTickerOhlcv, handleGetTickerDividend,
             handleGetEtfHoldings, handleGetExchangeRate, argumentBag;
      rewrite Hb; rewrite bind_lift_returned;
      repeat match goal with
             | Hk : lookup _ _ = Some _ |- _ =>
                 rewrite (getProp_object _ _ _ Hk), bind_lift_returned
             end
  end.

Lemma ohlcv_string_arguments req key u t i d :
  stringArgument req "ticker" t ->
  stringArgument req "infoType" i ->
  stringArgument req "date" d ->
  handleGetTickerOhlcv req key u = ohlcvWith (str t) (str i) (str d) key u.
Proof. intros Ht Hi Hd. same_bag. read_arguments. reflexivity. Qed.

Lemma dividend_string_arguments req key u t :
  stringArgument req "ticker" t ->
  handleGetTickerDividend req key u = dividendWith (str t) key u.
Proof. intros Ht. same_bag. read_arguments. reflexivity. Qed.

Lemma exchange_string_arguments req key u f t :
  stringArgument req "fromCurrency" f ->
  stringArgument req "toCurrency" t ->
  handleGetExchangeRate req key u = exchangeWith (str f) (str t) key u.
Proof. intros Hf Ht. same_bag. read_arguments. reflexivity. Qed.

(** ** The dispatcher *)

Lemma keyMissing_cases (env : option string) :
  keyMissing env = true <-> env = None \/ env = Some "".
Proof.
  destruct env as [k |]; simpl.
  - rewrite String.eqb_eq. split.
    + intros ->. now right.
    + intros [H | H]; [discriminate | now inversion H].
  - split; auto.
Qed.

(** With the key set, a registered name reaches its handler, which
    receives the request and the key unchanged. *)
Lemma callToolHandler_dispatch (env : option string) (req : Request)
    (tool : Tool) :
  keyMissing env = false ->
  name (params req) = toolName tool ->
  callToolHandler env req = handlerOf tool req (keyOf env).
Proof.
  intros Hkey Hname. unfold callToolHandler. rewrite Hkey, Hname.
  destruct tool; reflexivity.
Qed.

(** C8.  With the API key empty or not set, the dispatcher throws
    [ALPHAVANTAGE_API_KEY is not set] before it looks at the tool name:
    whatever the request and the upstream, nothing is fetched or logged (no
    handler runs), and the outcome is a thrown error, never a [ToolResult]
    such as the unknown-tool or no-data answers. *)
Theorem missing_key_is_fatal :
  forall (env : option string) (req : Request) (upstream : Upstream),
    env = None \/ env = Some "" ->
    callToolHandler env req upstream
      = ([], Threw (newError "ALPHAVANTAGE_API_KEY is not set"))
    /\ (forall trace result,
          callToolHandler env req upstream <> (trace, Returned result)).
Proof.
  intros env req upstream Henv.
  apply keyMissing_cases in Henv.
  assert (E : callToolHandler env req upstream
              = ([], Threw (newError "ALPHAVANTAGE_API_KEY is not set"))).
  { unfold callToolHandler. rewrite Henv. reflexivity. }
  split; [exact E |].
  intros trace result. rewrite E. discriminate.
Qed.

Lemma missing_key_is_fatal_witness :
  callToolHandler None (Sample.ohlcv "close" "2024-01-02")
    (Sample.serving Sample.daily)
  = ([], Threw (newError "ALPHAVANTAGE_API_KEY is not set")).
Proof.
  apply (missing_key_is_fatal None).
  left. reflexivity.
Defined.

Lemma toolName_eqb_false (s : string) (t : Tool) :
  (forall t', s <> toolName t') -> (s =? toolName t) = false.
Proof. intros H. apply String.eqb_neq. apply H. Qed.

(** C4.  With the API key set, a tool name that is none of the four
    registered names is answered, without a throw and without any request
    or log line, by the error-flagged result [Tool <name> not found.] *)
Theorem unknown_tool_not_found :
  forall (env : option string) (req : Request) (upstream : Upstream),
    keyMissing env = false ->
    (forall t, name (params req) <> toolName t) ->
    callToolHandler env req upstream
      = ([], Returned (errorResult
                         ("Tool " ++ name (params req) ++ " not found."))).
Proof.
  intros env req upstream Hkey Hname.
  unfold callToolHandler. rewrite Hkey.
  pose proof (toolName_eqb_false _ Ohlcv Hname) as H1.
  pose proof (toolName_eqb_false _ Dividend Hname) as H2.
  pose proof (toolName_eqb_false _ Holdings Hname) as H3.
  pose proof (toolName_eqb_false _ ExchangeRate Hname) as H4.
  cbn [toolName] in H1, H2, H3, H4.
  cbv zeta. rewrite H1, H2, H3, H4.
  reflexivity.
Qed.

Lemma unknown_tool_not_found_witness :
  callToolHandler (Some "demo") (Sample.request "get_quote" [])
    Sample.offline
  = ([], Returned (errorResult "Tool get_quote not found.")).
Proof.
  apply (unknown_tool_not_found (Some "demo")
           (Sample.request "get_quote" [])).
  - reflexivity.
  - intros t; destruct t; simpl; discriminate.
Defined.

(** ** The OHLCV handler *)

Lemma resolve_empty_date resp k v rest :
  getProp (data resp) "Time Series (Daily)"
    = Returned (VJson (JObj ((k, v) :: rest))) ->
  resolveActualDate (str "") resp = Returned (str k).
Proof.
  intros H. unfold resolveActualDate.
  change (strictEqStr (str "") "") with true. cbv iota.
  rewrite H. reflexivity.
Qed.

Lemma resolve_first_key resp k v rest :
  getProp (data resp) "Time Series (Daily)"
    = Returned (VJson (JObj ((k, v) :: rest))) ->
  resolveActualDate (str k) resp = Returned (str k).
Proof.
  intros H. unfold resolveActualDate.
  change (strictEqStr (str k) "") with (k =? "").
  destruct (k =? "") eqn:E; [| reflexivity].
  rewrite H. reflexivity.
Qed.

(** A date other than the empty string is taken as it is. *)
Lemma resolve_given_date resp d :
  d <> "" -> resolveActualDate (str d) resp = Returned (str d).
Proof.
  intros H. unfold resolveActualDate.
  change (strictEqStr (str d) "") with (d =? "").
  apply String.eqb_neq in H. rewrite H. reflexivity.
Qed.

Lemma strictEq_unrecognised i :
  fieldOf i = None ->
  strictEqStr (str i) "open" = false /\ strictEqStr (str i) "high" = false /\
  strictEqStr (str i) "low" = false /\ strictEqStr (str i) "close" = false /\
  strictEqStr (str i) "volume" = false.
Proof.
  unfold fieldOf, strictEqStr, str.
  destruct (i =? "open"); [discriminate |].
  destruct (i =? "high"); [discriminate |].
  destruct (i =? "low"); [discriminate |].
  destruct (i =? "close"); [discriminate |].
  destruct (i =? "volume"); [discriminate |]. auto.
Qed.

(** The recognised values of [infoType] and their fields. *)
Lemma fieldOf_cases i field :
  fieldOf i = Some field ->
  (i = "open" /\ field = "1. open") \/ (i = "high" /\ field = "2. high") \/
  (i = "low" /\ field = "3. low") \/ (i = "close" /\ field = "4. close") \/
  (i = "volume" /\ field = "5. volume").
Proof.
  unfold fieldOf.
  destruct (i =? "open") eqn:E1;
    [apply String.eqb_eq in E1; intros H; inversion H; auto |].
  destruct (i =? "high") eqn:E2;
    [apply String.eqb_eq in E2; intros H; inversion H; auto |].
  destruct (i =? "low") eqn:E3;
    [apply String.eqb_eq in E3; intros H; inversion H; auto |].
  destruct (i =? "close") eqn:E4;
    [apply String.eqb_eq in E4; intros H; inversion H; auto 6 |].
  destruct (i =? "volume") eqn:E5;
    [apply String.eqb_eq in E5; intros H; inversion H; auto 6 |].
  discriminate.
Qed.

Ltac after_fetch Hup :=
  unfold ohlcvTry;
  rewrite !(bind_returned _ _ _ _ _
              (fetch_resolved _ _ _ _ (ohlcvUrl_string _ _) Hup)).

(** C2.  When the request carries strings for [ticker], [infoType] and
    [date], [infoType] is one of the five recognised values, the request
    resolves, and the series holds at the resolved date a record whose
    field for that [infoType] is the string [p], the handler makes that one
    request and returns the result that is not error-flagged and whose text
    is [The <infoType> for <ticker> on <actualDate> is <p>], with [p]
    copied as it is. *)
Theorem ohlcv_success_text :
  forall req apiKey upstream t i d resp series a record field p,
    stringArgument req "ticker" t ->
    stringArgument req "infoType" i ->
    stringArgument req "date" d ->
    upstream (ohlcvUrlOf t apiKey) = Resolved resp ->
    getProp (data resp) "Time Series (Daily)"
      = Returned (VJson (JObj series)) ->
    resolveActualDate (str d) resp = Returned (str a) ->
    lookup a series = Some (JObj record) ->
    fieldOf i = Some field ->
    lookup field record = Some (JStr p) ->
    handleGetTickerOhlcv req apiKey upstream
    = ([HttpGet (ohlcvUrlOf t apiKey)],
       Returned (textResult
         ("The " ++ i ++ " for " ++ t ++ " on " ++ a ++ " is " ++ p))).
Proof.
  intros req apiKey upstream t i d resp series a record field p
         Ht Hi Hd Hup Hseries Hres Hrec Hfield Hp.
  rewrite (ohlcv_string_arguments _ _ _ _ _ _ Ht Hi Hd).
  unfold ohlcvWith. apply tryCatch_returned.
  after_fetch Hup.
  rewrite Hres, bind_lift_returned, Hseries, bind_lift_returned.
  unfold getIndex. cbn [toString jsonToString str obind].
  rewrite (getProp_object _ _ _ Hrec), bind_lift_returned.
  cbn [truthy negb].
  destruct (fieldOf_cases _ _ Hfield)
    as [[-> ->] | [[-> ->] | [[-> ->] | [[-> ->] | [-> ->]]]]];
    simpl; rewrite Hp; simpl; rewrite append_empty; reflexivity.
Qed.

Lemma ohlcv_success_text_witness :
  handleGetTickerOhlcv (Sample.ohlcv "close" "2024-01-02") "demo"
    (Sample.serving Sample.daily)
  = ([HttpGet (ohlcvUrlOf "AAPL" "demo")],
     Returned (textResult "The close for AAPL on 2024-01-02 is 185.64")).
Proof.
  apply (ohlcv_success_text (Sample.ohlcv "close" "2024-01-02") "demo"
           (Sample.serving Sample.daily) "AAPL" "close" "2024-01-02"
           Sample.daily Sample.series "2024-01-02" Sample.day "4. close"
           "185.64");
    try reflexivity; eexists; split; reflexivity.
Defined.

(** C3.  When [date] is the empty string and the series of the response is
    an object whose first key is [k], the date resolves to [k], without any
    sorting, and the handler answers as it does for the date [k]. *)
Theorem empty_date_is_first_key :
  forall req apiKey upstream t i resp k v rest,
    stringArgument req "ticker" t ->
    stringArgument req "infoType" i ->
    stringArgument req "date" "" ->
    upstream (ohlcvUrlOf t apiKey) = Resolved resp ->
    getProp (data resp) "Time Series (Daily)"
      = Returned (VJson (JObj ((k, v) :: rest))) ->
    resolveActualDate (str "") resp = Returned (str k)
    /\ handleGetTickerOhlcv req apiKey upstream
       = ohlcvWith (str t) (str i) (str k) apiKey upstream.
Proof.
  intros req apiKey upstream t i resp k v rest Ht Hi Hd Hup Hseries.
  split; [exact (resolve_empty_date _ _ _ _ Hseries) |].
  rewrite (ohlcv_string_arguments _ _ _ _ _ _ Ht Hi Hd).
  unfold ohlcvWith, tryCatch.
  after_fetch Hup.
  unfold bind at 1 3.
  rewrite (resolve_empty_date _ _ _ _ Hseries),
          (resolve_first_key _ _ _ _ Hseries).
  reflexivity.
Qed.

Lemma empty_date_is_first_key_witness :
  resolveActualDate (str "") Sample.daily = Returned (str "2024-01-02")
  /\ handleGetTickerOhlcv (Sample.ohlcv "close" "") "demo"
       (Sample.serving Sample.daily)
     = ohlcvWith (str "AAPL") (str "close") (str "2024-01-02") "demo"
         (Sample.serving Sample.daily).
Proof.
  apply (empty_date_is_first_key (Sample.ohlcv "close" "") "demo"
           (Sample.serving Sample.daily) "AAPL" "close" Sample.daily
           "2024-01-02" (JObj Sample.day)
           [("2023-12-29", JObj Sample.day)]);
    try reflexivity; eexists; split; reflexivity.
Defined.

(** C5, as the code has it.  When [infoType] is a string outside the five
    recognised values, the request resolves and the series holds a record
    at the resolved date, the [Invalid infoType] error thrown by the
    [switch] is caught by the outer [catch]: it is logged, and the result is
    error-flagged with the text
    [Failed to get the <value> price for <ticker>. Error: Invalid infoType: <value>]. *)
Theorem invalid_infoType_text :
  forall req apiKey upstream t i d resp series a record,
    stringArgument req "ticker" t ->
    stringArgument req "infoType" i ->
    stringArgument req "date" d ->
    fieldOf i = None ->
    upstream (ohlcvUrlOf t apiKey) = Resolved resp ->
    getProp (data resp) "Time Series (Daily)"
      = Returned (VJson (JObj series)) ->
    resolveActualDate (str d) resp = Returned (str a) ->
    lookup a series = Some (JObj record) ->
    handleGetTickerOhlcv req apiKey upstream
    = ([HttpGet (ohlcvUrlOf t apiKey);
        LogError (newError ("Invalid infoType: " ++ i))],
       Returned (errorResult
         ("Failed to get the " ++ i ++ " price for " ++ t
          ++ ". Error: Invalid infoType: " ++ i))).
Proof.
  intros req apiKey upstream t i d resp series a record
         Ht Hi Hd Hfield Hup Hseries Hres Hrec.
  rewrite (ohlcv_string_arguments _ _ _ _ _ _ Ht Hi Hd).
  destruct (strictEq_unrecognised i Hfield) as (E1 & E2 & E3 & E4 & E5).
  assert (Hbody : ohlcvTry (str t) (str i) (str d) apiKey upstream
                  = ([HttpGet (ohlcvUrlOf t apiKey)],
                     Threw (newError ("Invalid infoType: " ++ i)))).
  { after_fetch Hup.
    rewrite Hres, bind_lift_returned, Hseries, bind_lift_returned.
    unfold getIndex. cbn [toString jsonToString str obind].
    rewrite (getProp_object _ _ _ Hrec), bind_lift_returned.
    cbn [truthy negb getProp].
    rewrite !bind_lift_returned.
    unfold selectPrice. rewrite E1, E2, E3, E4, E5.
    simpl. rewrite append_empty. reflexivity. }
  unfold ohlcvWith.
  rewrite (tryCatch_threw _ _ _ _ _ Hbody).
  simpl. rewrite append_empty. reflexivity.
Qed.

Lemma invalid_infoType_text_witness :
  handleGetTickerOhlcv (Sample.ohlcv "median" "2024-01-02") "demo"
    (Sample.serving Sample.daily)
  = ([HttpGet (ohlcvUrlOf "AAPL" "demo");
      LogError (newError "Invalid infoType: median")],
     Returned (errorResult
       "Failed to get the median price for AAPL. Error: Invalid infoType: median")).
Proof.
  apply (invalid_infoType_text (Sample.ohlcv "median" "2024-01-02") "demo"
           (Sample.serving Sample.daily) "AAPL" "median" "2024-01-02"
           Sample.daily Sample.series "2024-01-02" Sample.day);
    try reflexivity; eexists; split; reflexivity.
Defined.

(** C5 as stated fails: for [infoType = "median"] the text of the result is
    not [Invalid infoType: median]; that message is only its tail. *)
Lemma invalid_infoType_counterexample :
  exists trace result,
    handleGetTickerOhlcv (Sample.ohlcv "median" "2024-01-02") "demo"
      (Sample.serving Sample.daily) = (trace, Returned result)
    /\ isError result = Some true
    /\ map text (content result)
       = ["Failed to get the median price for AAPL. Error: Invalid infoType: median"]
    /\ map text (content result) <> ["Invalid infoType: median"].
Proof.
  eexists. eexists. split; [reflexivity |].
  split; [reflexivity |]. split; [reflexivity |]. discriminate.
Qed.

(** No name that begins with a digit is a member of [Object.prototype]; in
    particular no date of the declared [YYYY-MM-DD] form is. *)
Lemma digit_led_not_inherited (c : ascii) (r : string) :
  isDigit c = true -> inherited ObjectProto (String c r) = VUndefined.
Proof.
  destruct c as [[] [] [] [] [] [] [] []]; intros H;
    try discriminate H; reflexivity.
Qed.

Lemma date_not_inherited (a : string) :
  matchesDatePattern a = true -> inherited ObjectProto a = VUndefined.
Proof.
  destruct a as [| c r]; [discriminate |].
  intros H. apply digit_led_not_inherited.
  unfold matchesDatePattern in H. simpl in H.
  destruct (list_ascii_of_string r)
    as [| ? [| ? [| ? [| ? [| ? [| ? [| ? [| ? [| ? [| ? ?]]]]]]]]]];
    try discriminate H.
  destruct (isDigit c); [reflexivity | discriminate H].
Qed.

(** C6, as the code has it.  When the series of the response is an object
    with no own record under the resolved date, and that date is not the
    name of a member every object inherits (no [YYYY-MM-DD] date is, see
    [date_not_inherited]), the handler returns, without throwing or
    logging, the error-flagged result
    [No data found for <ticker> on <actualDate>.] *)
Theorem no_record_at_date :
  forall req apiKey upstream t i d resp series actual a,
    stringArgument req "ticker" t ->
    stringArgument req "infoType" i ->
    stringArgument req "date" d ->
    upstream (ohlcvUrlOf t apiKey) = Resolved resp ->
    getProp (data resp) "Time Series (Daily)"
      = Returned (VJson (JObj series)) ->
    resolveActualDate (str d) resp = Returned actual ->
    toString actual = Returned a ->
    lookup a series = None ->
    inherited ObjectProto a = VUndefined ->
    handleGetTickerOhlcv req apiKey upstream
    = ([HttpGet (ohlcvUrlOf t apiKey)],
       Returned (errorResult
         ("No data found for " ++ t ++ " on " ++ a ++ "."))).
Proof.
  intros req apiKey upstream t i d resp series actual a
         Ht Hi Hd Hup Hseries Hres Hkey Hrec Hinh.
  rewrite (ohlcv_string_arguments _ _ _ _ _ _ Ht Hi Hd).
  unfold ohlcvWith. apply tryCatch_returned.
  after_fetch Hup.
  rewrite Hres, bind_lift_returned, Hseries, bind_lift_returned.
  unfold getIndex. rewrite Hkey. cbn [obind getProp].
  rewrite Hrec, Hinh, bind_lift_returned.
  cbn [truthy negb template str toString jsonToString obind].
  rewrite Hkey. cbn [obind]. rewrite bind_lift_returned.
  reflexivity.
Qed.

Lemma no_record_at_date_witness :
  handleGetTickerOhlcv (Sample.ohlcv "close" "2024-01-03") "demo"
    (Sample.serving Sample.daily)
  = ([HttpGet (ohlcvUrlOf "AAPL" "demo")],
     Returned (errorResult "No data found for AAPL on 2024-01-03.")).
Proof.
  apply (no_record_at_date (Sample.ohlcv "close" "2024-01-03") "demo"
           (Sample.serving Sample.daily) "AAPL" "close" "2024-01-03"
           Sample.daily Sample.series (str "2024-01-03") "2024-01-03");
    try reflexivity; eexists; split; reflexivity.
Defined.

(** C6 as stated fails: the series has no record under [constructor], yet
    the read [series["constructor"]] finds the member inherited from
    [Object.prototype], which is truthy, and the handler answers with a
    result that is not error-flagged. *)
Lemma no_record_counterexample :
  lookup "constructor" Sample.series = None
  /\ handleGetTickerOhlcv (Sample.ohlcv "close" "constructor") "demo"
       (Sample.serving Sample.daily)
     = ([HttpGet (ohlcvUrlOf "AAPL" "demo")],
        Returned (textResult
          "The close for AAPL on constructor is undefined")).
Proof. split; reflexivity. Qed.

(** ** The dividend handler *)

Lemma dividend_lines items records :
  Forall2 isDividendRecord items records ->
  mapItems dividendLine items
  = Returned (map (fun r => dividendLineOf (fst r) (snd r)) records).
Proof.
  induction 1 as [| item r items records (props & -> & Hd & Ha) _ IH].
  - reflexivity.
  - cbn [mapItems map]. rewrite IH.
    unfold dividendLine. cbn [getProp]. rewrite Hd, Ha.
    simpl. rewrite append_empty. reflexivity.
Qed.

(** C7.  For a string ticker and a resolved request: when the response has
    no ["data"], the result is error-flagged with the text
    [No dividend data found for <ticker>.]; when ["data"] is an array of
    length zero, the result is not error-flagged and its text is the header
    [Dividend history for <ticker>:] and its line break, with no record
    line; when ["data"] is an array of records, each with a string date and
    a string amount, the text is the header, a line break, and the lines
    [Ex-Dividend Date: <date>, Amount: <amount>] joined by line breaks. *)
Theorem dividend_rendering :
  forall req apiKey upstream t resp,
    stringArgument req "ticker" t ->
    upstream (dividendUrlOf t apiKey) = Resolved resp ->
    let run := handleGetTickerDividend req apiKey upstream in
    let answer r := ([HttpGet (dividendUrlOf t apiKey)], Returned r) in
    let header := "Dividend history for " ++ t ++ ":" in
    (getProp (data resp) "data" = Returned VUndefined ->
     run = answer (errorResult ("No dividend data found for " ++ t ++ ".")))
    /\ (getProp (data resp) "data" = Returned (VJson (JArr [])) ->
        run = answer (textResult (header ++ newline)))
    /\ (forall items records,
          getProp (data resp) "data" = Returned (VJson (JArr items)) ->
          Forall2 isDividendRecord items records ->
          run = answer (textResult
                  (header ++ newline
                   ++ joinLines (map (fun r => dividendLineOf (fst r) (snd r))
                                     records)))).
Proof.
  intros req apiKey upstream t resp Ht Hup run answer header.
  subst run answer header.
  rewrite (dividend_string_arguments _ _ _ _ Ht).
  assert (Hfetch := fetch_resolved _ _ _ _ (dividendUrl_string t apiKey) Hup).
  assert (Hlist : forall items records,
            getProp (data resp) "data" = Returned (VJson (JArr items)) ->
            Forall2 isDividendRecord items records ->
            dividendWith (str t) apiKey upstream
            = ([HttpGet (dividendUrlOf t apiKey)],
               Returned (textResult
                 (("Dividend history for " ++ t ++ ":") ++ newline
                  ++ joinLines (map (fun r => dividendLineOf (fst r) (snd r))
                                    records))))).
  { intros items records Hdata Hrecs. rewrite !append_assoc.
    unfold dividendWith. apply tryCatch_returned. unfold dividendTry.
    rewrite (bind_returned _ _ _ _ _ Hfetch).
    rewrite Hdata, bind_lift_returned. cbn [truthy negb].
    unfold arrayMap. cbn [getProp obind].
    change (if "map" =? "length" then _ else _) with (VFunction "map").
    cbv iota. rewrite (dividend_lines _ _ Hrecs), bind_lift_returned.
    simpl. rewrite append_empty. reflexivity. }
  split; [| split].
  - intros Hdata.
    unfold dividendWith. apply tryCatch_returned. unfold dividendTry.
    rewrite (bind_returned _ _ _ _ _ Hfetch).
    rewrite Hdata, bind_lift_returned. simpl. reflexivity.
  - intros Hdata. rewrite (Hlist [] [] Hdata (Forall2_nil _)).
    reflexivity.
  - exact Hlist.
Qed.

Lemma dividend_rendering_witness :
  handleGetTickerDividend Sample.dividend "demo"
    (Sample.serving Sample.dividends)
  = ([HttpGet (dividendUrlOf "AAPL" "demo")],
     Returned (textResult
       ("Dividend history for AAPL:" ++ newline
        ++ "Ex-Dividend Date: 2024-02-09, Amount: 0.24" ++ newline
        ++ "Ex-Dividend Date: 2023-11-10, Amount: 0.24"))).
Proof.
  refine (proj2 (proj2
    (dividend_rendering Sample.dividend "demo"
       (Sample.serving Sample.dividends) "AAPL" Sample.dividends _ _))
    Sample.payouts [("2024-02-09", "0.24"); ("2023-11-10", "0.24")] _ _).
  - eexists; split; reflexivity.
  - reflexivity.
  - reflexivity.
  - repeat constructor; eexists; repeat split; reflexivity.
Defined.

(** ** The exchange-rate handler *)

(** C9.  For string currencies and a resolved request: when the response
    holds the ["Realtime Currency Exchange Rate"] object and that object
    has no ["5. Exchange Rate"], the result is not error-flagged and its
    text is [The exchange rate from <from> to <to> is undefined]. *)
Theorem missing_rate_is_not_detected :
  forall req apiKey upstream f t resp rate,
    stringArgument req "fromCurrency" f ->
    stringArgument req "toCurrency" t ->
    upstream (exchangeUrlOf f t apiKey) = Resolved resp ->
    getProp (data resp) "Realtime Currency Exchange Rate"
      = Returned (VJson (JObj rate)) ->
    lookup "5. Exchange Rate" rate = None ->
    handleGetExchangeRate req apiKey upstream
    = ([HttpGet (exchangeUrlOf f t apiKey)],
       Returned (textResult
         ("The exchange rate from " ++ f ++ " to " ++ t ++ " is undefined")))
    /\ isError (textResult
         ("The exchange rate from " ++ f ++ " to " ++ t ++ " is undefined"))
       = None.
Proof.
  intros req apiKey upstream f t resp rate Hf Ht Hup Hdata Hrate.
  split; [| reflexivity].
  rewrite (exchange_string_arguments _ _ _ _ _ Hf Ht).
  unfold exchangeWith. apply tryCatch_returned. unfold exchangeTry.
  rewrite exchangeUrl_string, bind_lift_returned.
  unfold bind at 1, axiosGet at 1. rewrite Hup.
  rewrite Hdata, bind_lift_returned. cbn [truthy negb getProp].
  rewrite Hrate, bind_lift_returned.
  simpl. reflexivity.
Qed.

Lemma missing_rate_is_not_detected_witness :
  handleGetExchangeRate Sample.exchange "demo"
    (Sample.serving Sample.rateless)
  = ([HttpGet (exchangeUrlOf "USD" "EUR" "demo")],
     Returned (textResult "The exchange rate from USD to EUR is undefined"))
  /\ isError (textResult "The exchange rate from USD to EUR is undefined")
     = None.
Proof.
  apply (missing_rate_is_not_detected Sample.exchange "demo"
           (Sample.serving Sample.rateless) "USD" "EUR" Sample.rateless
           [("1. From_Currency Code", JStr "USD");
            ("3. To_Currency Code", JStr "EUR")]);
    try reflexivity; eexists; split; reflexivity.
Defined.

(** ** No handler throws on printable arguments *)

Lemma handler_with_bag tool req bag apiKey upstream :
  arguments (params req) = Some bag ->
  handlerOf tool req apiKey upstream
  = tryCatch (tryOf tool bag apiKey) (catchOf tool bag) upstream.
Proof.
  intros Hb.
  destruct tool; cbn [handlerOf tryOf catchOf];
    unfold handleGetTickerOhlcv, handleGetTickerDividend,
           handleGetEtfHoldings, handleGetExchangeRate, argumentBag;
    rewrite Hb; rewrite bind_lift_returned;
    cbn [getProp]; rewrite ?bind_lift_returned; reflexivity.
Qed.

(** The [catch] block logs the error and returns an error-flagged result,
    provided the arguments it prints convert to strings. *)
Lemma catch_returns tool bag e upstream :
  Forall (fun k => renders (argument bag k)) (printedOnFailure tool) ->
  exists message,
    catchOf tool bag e upstream
    = ([LogError e], Returned (errorResult message)).
Proof.
  intros H.
  destruct tool; cbn [printedOnFailure] in H;
    repeat match goal with
           | H : Forall _ (_ :: _) |- _ => inversion H; subst; clear H
           | H : Forall _ [] |- _ => clear H
           | H : renders _ |- _ => destruct H as [? H]
           end;
    cbn [catchOf];
    unfold ohlcvCatch, dividendCatch, holdingsCatch, exchangeCatch,
           bind, loggerError, lift, ret;
    cbn [template obind];
    repeat match goal with
           | H : toString _ = Returned _ |- _ => rewrite H; clear H
           end;
    cbn [obind toString jsonToString str template app fst snd];
    eexists; reflexivity.
Qed.

Lemma Enveloped_bind {A} (m : M A) (k : A -> M ToolResult) :
  (forall a, Enveloped (k a)) -> Enveloped (bind m k).
Proof.
  intros Hk u t r. unfold bind.
  destruct (m u) as [t1 [a | e]]; [| discriminate].
  destruct (k a u) as [t2 o] eqn:E. intros H. inversion H; subst.
  exact (Hk a u t2 r E).
Qed.

Lemma Enveloped_error (message : string) :
  Enveloped (ret (errorResult message)).
Proof. intros u t r H. inversion H. exists message. now left. Qed.

Lemma Enveloped_text (message : string) :
  Enveloped (ret (textResult message)).
Proof. intros u t r H. inversion H. exists message. now right. Qed.

Ltac enveloped :=
  repeat first
    [ apply Enveloped_error
    | apply Enveloped_text
    | apply Enveloped_bind; intros ?
    | match goal with
      | |- Enveloped (if ?b then _ else _) => destruct b
      end ].

Lemma tryOf_enveloped tool bag apiKey : Enveloped (tryOf tool bag apiKey).
Proof.
  destruct tool; cbn [tryOf];
    unfold ohlcvTry, dividendTry, holdingsTry, exchangeTry; enveloped.
Qed.

(** C1, as the code has it.  When the argument bag is present and the
    arguments that the handler's [catch] block prints convert to strings
    (any string, number, boolean, [null] or missing argument does), then
    for every upstream - resolving with any JSON or raw text, or
    rejecting - each of the four handlers returns one result, of one text
    item, and throws nothing; whenever its [try] block throws, that result
    is the error-flagged one built by the [catch] block. *)
Theorem handlers_return :
  forall tool req bag apiKey upstream,
    arguments (params req) = Some bag ->
    Forall (fun k => renders (argument bag k)) (printedOnFailure tool) ->
    exists trace result,
      handlerOf tool req apiKey upstream = (trace, Returned result)
      /\ isEnvelope result
      /\ (forall t e, tryOf tool bag apiKey upstream = (t, Threw e) ->
                      isError result = Some true).
Proof.
  intros tool req bag apiKey upstream Hb Hr.
  rewrite (handler_with_bag _ _ _ _ _ Hb).
  unfold tryCatch.
  destruct (tryOf tool bag apiKey upstream) as [t1 [r | e]] eqn:E.
  - exists t1, r. split; [reflexivity |]. split.
    + exact (tryOf_enveloped _ _ _ _ _ _ E).
    + intros t e H. discriminate H.
  - destruct (catch_returns tool bag e upstream Hr) as (message & Hc).
    rewrite Hc. exists (t1 ++ [LogError e])%list, (errorResult message).
    split; [reflexivity |]. split.
    + exists message. now left.
    + intros _ _ _. reflexivity.
Qed.

Lemma handlers_return_witness :
  exists trace result,
    handleGetTickerDividend Sample.dividend "demo" Sample.offline
    = (trace, Returned result)
    /\ isEnvelope result
    /\ (forall t e,
          dividendTry (str "AAPL") "demo" Sample.offline = (t, Threw e) ->
          isError result = Some true).
Proof.
  apply (handlers_return Dividend Sample.dividend
           [("ticker", JStr "AAPL")] "demo" Sample.offline).
  - reflexivity.
  - repeat constructor. exists "AAPL". reflexivity.
Defined.

(** A rejected request, end to end: two log lines and the failure text. *)
Example dividend_offline :
  handleGetTickerDividend Sample.dividend "demo" Sample.offline
  = ([HttpGet (dividendUrlOf "AAPL" "demo");
      LogError (mkError "AxiosError" "Network Error");
      LogError (newError "AxiosError: Network Error")],
     Returned (errorResult
       "Failed to get the dividend data for AAPL. Error: AxiosError: Network Error")).
Proof. reflexivity. Qed.

(** C1 as stated fails.  A ticker that is an object with an own [toString]
    entry cannot be converted to a string: the URL template throws inside
    the inner [try], the outer [catch] is entered, and its own message
    template throws again, out of the handler.  A call without arguments
    throws at the destructuring, before the [try] is entered. *)
Lemma handlers_can_throw :
  handleGetTickerDividend Sample.opaqueTicker "demo" Sample.offline
  = ([LogError cannotConvert; LogError (newErrorFrom cannotConvert)],
     Threw cannotConvert)
  /\ handleGetTickerDividend Sample.bare "demo" Sample.offline
     = ([],
        Threw (TypeError
          "Cannot destructure property 'ticker' of 'req.params.arguments' as it is undefined.")).
Proof. split; reflexivity. Qed.

(** ** The OHLCV handler without a series *)

Lemma ohlcvUrl_rendered (ticker : Value) (t key : string) :
  toString ticker = Returned t ->
  ohlcvUrl ticker key = Returned (ohlcvUrlOf t key).
Proof.
  intros H. unfold ohlcvUrl, ohlcvUrlOf. cbn [template obind]. rewrite H.
  cbn [obind str toString jsonToString]. rewrite append_empty. reflexivity.
Qed.

(** C10, as the code has it.  When the argument bag is present, its
    [ticker] and [infoType] convert to strings (every string does; the
    date may be anything), and the request resolves with a response in
    which the read of ["Time Series (Daily)"] gives [undefined] (a
    rate-limit note, for one), the failure of [Object.keys] or of the
    indexing is a [TypeError] that the outer [catch] logs and turns into
    the error-flagged result
    [Failed to get the <infoType> price for <ticker>. Error: <message>];
    the text is never the [No data found] one and nothing is thrown. *)
Theorem missing_series_is_caught :
  forall req bag apiKey upstream t i resp,
    arguments (params req) = Some bag ->
    toString (argument bag "ticker") = Returned t ->
    toString (argument bag "infoType") = Returned i ->
    upstream (ohlcvUrlOf t apiKey) = Resolved resp ->
    getProp (data resp) "Time Series (Daily)" = Returned VUndefined ->
    exists message,
      handleGetTickerOhlcv req apiKey upstream
      = ([HttpGet (ohlcvUrlOf t apiKey); LogError (TypeError message)],
         Returned (errorResult
           ("Failed to get the " ++ i ++ " price for " ++ t ++ ". Error: "
            ++ message)))
      /\ forall a,
           "Failed to get the " ++ i ++ " price for " ++ t ++ ". Error: "
             ++ message
           <> "No data found for " ++ t ++ " on " ++ a ++ ".".
Proof.
  intros req bag apiKey upstream t i resp Hb Ht Hi Hup Hseries.
  change (handleGetTickerOhlcv req apiKey upstream)
    with (handlerOf Ohlcv req apiKey upstream).
  rewrite (handler_with_bag _ _ _ _ _ Hb). cbn [tryOf catchOf].
  remember (argument bag "ticker") as ticker eqn:Eticker.
  remember (argument bag "infoType") as infoType eqn:EinfoType.
  remember (argument bag "date") as date eqn:Edate.
  clear Eticker EinfoType Edate.
  assert (Hbody : exists message,
            ohlcvTry ticker infoType date apiKey upstream
            = ([HttpGet (ohlcvUrlOf t apiKey)], Threw (TypeError message))).
  { unfold ohlcvTry.
    rewrite (bind_returned _ _ _ _ _
               (fetch_resolved _ _ _ _ (ohlcvUrl_rendered _ _ apiKey Ht) Hup)).
    unfold resolveActualDate.
    destruct (strictEqStr date "").
    - rewrite Hseries. cbn [obind objectKeys]. rewrite bind_lift_threw.
      eexists. reflexivity.
    - rewrite bind_lift_returned, Hseries, bind_lift_returned.
      unfold getIndex.
      destruct (toString date) as [k | e]; cbn [getProp];
        rewrite bind_lift_threw; eexists; reflexivity. }
  destruct Hbody as (message & Hbody).
  exists message. split.
  - rewrite (tryCatch_threw _ _ _ _ _ Hbody).
    unfold ohlcvCatch, bind, loggerError, lift, ret.
    cbn [template obind]. rewrite Hi, Ht.
    cbn [obind str toString jsonToString fst snd app].
    rewrite append_empty. reflexivity.
  - intros a. simpl. discriminate.
Qed.

Lemma missing_series_is_caught_witness :
  exists message,
    handleGetTickerOhlcv (Sample.ohlcv "close" "2024-01-02") "demo"
      (Sample.serving Sample.note)
    = ([HttpGet (ohlcvUrlOf "AAPL" "demo"); LogError (TypeError message)],
       Returned (errorResult
         ("Failed to get the close price for AAPL. Error: " ++ message)))
    /\ forall a,
         "Failed to get the close price for AAPL. Error: " ++ message
         <> "No data found for AAPL on " ++ a ++ ".".
Proof.
  apply (missing_series_is_caught (Sample.ohlcv "close" "2024-01-02")
           [("ticker", JStr "AAPL"); ("infoType", JStr "close");
            ("date", JStr "2024-01-02")]
           "demo" (Sample.serving Sample.note) "AAPL" "close" Sample.note);
    reflexivity.
Defined.

(** C10 as stated fails.  With the rate-limit note and an [infoType] that
    is an object carrying its own [toString] entry, the [TypeError] of the
    indexing is caught and logged, and then the message template of the
    [catch] block cannot print [infoType]: it throws, out of the
    handler. *)
Lemma missing_series_counterexample :
  getProp (data Sample.note) "Time Series (Daily)" = Returned VUndefined
  /\ handleGetTickerOhlcv Fixture.opaqueInfoType "demo"
       (Sample.serving Sample.note)
     = ([HttpGet (ohlcvUrlOf "AAPL" "demo");
         LogError (TypeError
           "Cannot read properties of undefined (reading '2024-01-02')")],
        Threw cannotConvert).
Proof. split; reflexivity. Qed.

(** * Further properties of the handlers and the dispatcher *)

(** ** Steps that neither fetch nor log *)

Lemma Pure_lift {A} (o : Outcome A) : Pure (lift o).
Proof. intros u1 u2. reflexivity. Qed.

Lemma Pure_ret {A} (a : A) : Pure (ret a).
Proof. intros u1 u2. reflexivity. Qed.

Lemma Pure_bind {A B} (m : M A) (k : A -> M B) :
  Pure m -> (forall a, Pure (k a)) -> Pure (bind m k).
Proof.
  intros Hm Hk u1 u2. unfold bind.
  rewrite (Hm u1 u2), (Hm u2 u2).
  destruct (snd (m u2)) as [a | e]; cbn [snd].
  - rewrite (Hk a u1 u2), (Hk a u2 u2). reflexivity.
  - reflexivity.
Qed.

Ltac pure :=
  repeat first
    [ apply Pure_ret
    | apply Pure_lift
    | apply Pure_bind; [| intros ?]
    | match goal with
      | |- Pure (if ?b then _ else _) => destruct b
      end ].

(** Sequencing with a pure continuation adds no event. *)
Lemma bind_pure {A B} (m : M A) (k : A -> M B) (u u0 : Upstream) :
  (forall a, Pure (k a)) ->
  bind m k u
  = (fst (m u),
     match snd (m u) with
     | Returned a => snd (k a u0)
     | Threw e => Threw e
     end).
Proof.
  intros Hk. unfold bind. destruct (m u) as [t [a | e]]; cbn [fst snd].
  - rewrite (Hk a u u0). cbn. rewrite app_nil_r. reflexivity.
  - reflexivity.
Qed.

Lemma bind_assoc {A B C} (m : M A) (k : A -> M B) (h : B -> M C) u :
  bind (bind m k) h u = bind m (fun a => bind (k a) h) u.
Proof.
  unfold bind. destruct (m u) as [t1 [a | e]]; [| reflexivity].
  destruct (k a u) as [t2 [b | e]]; [| reflexivity].
  destruct (h b u) as [t3 o]. rewrite app_assoc. reflexivity.
Qed.

(** The [try] block of a handler is its request followed by pure steps
    that end in one of the two result literals. *)
Lemma tryOf_request tool bag apiKey :
  exists k : Response -> M ToolResult,
    (forall r, Pure (k r))
    /\ (forall r, Enveloped (k r))
    /\ forall u, tryOf tool bag apiKey u
                 = bind (requestOf tool bag apiKey) k u.
Proof.
  destruct tool; cbn [tryOf requestOf];
    unfold ohlcvTry, dividendTry, holdingsTry, exchangeTry.
  1-3: eexists; split; [| split; [| intros u; reflexivity]];
       intros r; [pure | enveloped].
  eexists (fun response => _). split; [| split].
  3: { intros u. rewrite bind_assoc. reflexivity. }
  - intros r. cbv beta. pure.
  - intros r. cbv beta. enveloped.
Qed.

(** A [catch] block writes one log line, whatever the upstream, and ends
    by throwing or by returning an error-flagged result. *)
Lemma catchOf_logs tool bag e :
  exists o,
    (forall u, catchOf tool bag e u = ([LogError e], o))
    /\ (forall r, o = Returned r -> exists message, r = errorResult message).
Proof.
  destruct tool; cbn [catchOf];
    unfold ohlcvCatch, dividendCatch, holdingsCatch, exchangeCatch,
           bind, loggerError, lift, ret;
    match goal with
    | |- context [template ?parts] => destruct (template parts) as [m | e']
    end;
    eexists; (split; [intros u; reflexivity |]);
    intros r H; inversion H; eauto.
Qed.

Lemma fetch_run url u : RequestRun u (fetch url u).
Proof.
  unfold fetch, tryCatch, bind, lift, axiosGet, loggerError, throw.
  destruct url as [s | e]; cbn.
  - destruct (u s) as [r | e] eqn:E; cbn.
    + now apply run_resolved.
    + apply (run_rejected u s e [LogError e]); auto.
  - apply run_bad_url. auto.
Qed.

Lemma requestOf_run tool bag apiKey u :
  RequestRun u (requestOf tool bag apiKey u).
Proof.
  destruct tool; cbn [requestOf]; try apply fetch_run.
  unfold bind, lift, axiosGet.
  destruct (exchangeUrl _ _ _) as [s | e]; cbn.
  - destruct (u s) as [r | e] eqn:E; cbn.
    + now apply run_resolved.
    + apply (run_rejected u s e []); auto.
  - apply run_bad_url. auto.
Qed.

Lemma requests_app t1 t2 : requests (t1 ++ t2) = requests t1 + requests t2.
Proof. unfold requests. rewrite filter_app, length_app. reflexivity. Qed.

Lemma requests_logs logs :
  Forall (fun ev => isGet ev = false) logs -> requests logs = 0.
Proof.
  unfold requests. induction 1 as [| ev logs H _ IH]; [reflexivity |].
  cbn. rewrite H. exact IH.
Qed.

Lemma handler_without_arguments tool req apiKey u :
  arguments (params req) = None ->
  exists e, handlerOf tool req apiKey u = ([], Threw e).
Proof.
  intros Hb.
  destruct tool; cbn [handlerOf];
    unfold handleGetTickerOhlcv, handleGetTickerDividend,
           handleGetEtfHoldings, handleGetExchangeRate, argumentBag;
    rewrite Hb; rewrite bind_lift_threw; eexists; reflexivity.
Qed.

Lemma handler_run tool req apiKey u :
  HandlerRun u (handlerOf tool req apiKey u).
Proof.
  destruct (arguments (params req)) as [bag |] eqn:Hb.
  2: { destruct (handler_without_arguments tool req apiKey u Hb) as (e & ->).
       apply run_no_arguments. }
  rewrite (handler_with_bag _ _ _ _ _ Hb).
  destruct (tryOf_request tool bag apiKey) as (k & Hk & Henv & Htry).
  unfold tryCatch. rewrite Htry, (bind_pure _ _ u nowhere Hk).
  assert (Hcatch : forall pre e,
            requests pre <= 1 ->
            HandlerRun u
              (let (t2, r) := catchOf tool bag e u in ((pre ++ t2)%list, r))).
  { intros pre e Hpre.
    destruct (catchOf_logs tool bag e) as (o & Ho & Hshape).
    rewrite (Ho u). apply (run_caught u _ e).
    - rewrite requests_app. cbn. lia.
    - apply in_or_app. right. now left.
    - exact Hshape. }
  destruct (requestOf_run tool bag apiKey u)
    as [logs e Hlogs | url r Hu | url e logs e' Hu Hlogs];
    cbn [fst snd].
  - apply Hcatch. rewrite (requests_logs _ Hlogs). lia.
  - destruct (snd (k r nowhere)) as [result | e] eqn:E.
    + apply (run_answered u url r); [exact Hu |].
      apply (Henv r nowhere (fst (k r nowhere)) result).
      rewrite <- E. apply surjective_pairing.
    + apply Hcatch. cbn. lia.
  - apply Hcatch.
    change (HttpGet url :: logs) with ([HttpGet url] ++ logs)%list.
    rewrite requests_app, (requests_logs _ Hlogs). cbn. lia.
Qed.

(** The dispatcher adds two runs of its own: the throw for a missing key
    (no event) and the answer to an unknown name (no event, error-flagged). *)
Lemma dispatcher_run env req u :
  HandlerRun u (callToolHandler env req u)
  \/ exists message,
       callToolHandler env req u = ([], Returned (errorResult message)).
Proof.
  unfold callToolHandler.
  destruct (keyMissing env); [left; apply run_no_arguments |].
  cbv zeta.
  destruct (_ =? "get_ticker_ohlcv");
    [left; apply (handler_run Ohlcv) |].
  destruct (_ =? "get_ticker_dividend");
    [left; apply (handler_run Dividend) |].
  destruct (_ =? "get_etf_holdings");
    [left; apply (handler_run Holdings) |].
  destruct (_ =? "get_exchange_rate");
    [left; apply (handler_run ExchangeRate) |].
  right. eexists. reflexivity.
Qed.

(** ** Invariants of every invocation *)

(** Whatever the key, the request and the upstream, an invocation sends at
    most one HTTP request: nothing is retried and no second endpoint is
    asked. *)
Theorem at_most_one_request :
  forall env req upstream,
    requests (fst (callToolHandler env req upstream)) <= 1.
Proof.
  intros env req upstream.
  destruct (dispatcher_run env req upstream) as [H | (message & ->)].
  - inversion H; cbn [fst]; cbn; lia.
  - cbn. lia.
Qed.

(** A returned result and the log agree: if an error was logged the result
    is error-flagged, and a result that is not error-flagged was produced
    with no log line after exactly one request, which resolved. *)
Theorem log_matches_flag :
  forall env req upstream trace result,
    callToolHandler env req upstream = (trace, Returned result) ->
    (logged trace -> isError result = Some true)
    /\ (isError result = None ->
        exists url response,
          trace = [HttpGet url] /\ upstream url = Resolved response).
Proof.
  intros env req upstream trace result Hrun.
  destruct (dispatcher_run env req upstream) as [H | (message & H)];
    rewrite Hrun in H.
  - inversion H as [| url r res Hu Henv | tr e o Hreq Hin Hshape]; subst.
    + split.
      * intros (e & [He | []]). discriminate He.
      * intros _. eauto.
    + destruct (Hshape result eq_refl) as (message & ->).
      split; [reflexivity | discriminate].
  - inversion H; subst. split; [reflexivity | discriminate].
Qed.

Lemma log_matches_flag_witness :
  (logged [HttpGet (dividendUrlOf "AAPL" "demo");
           LogError Fixture.refused;
           LogError (newErrorFrom Fixture.refused)] ->
   isError (errorResult
     "Failed to get the dividend data for AAPL. Error: AxiosError: Network Error")
   = Some true)
  /\ (isError (errorResult
        "Failed to get the dividend data for AAPL. Error: AxiosError: Network Error")
      = None ->
      exists url response,
        [HttpGet (dividendUrlOf "AAPL" "demo");
         LogError Fixture.refused;
         LogError (newErrorFrom Fixture.refused)] = [HttpGet url]
        /\ Sample.offline url = Resolved response).
Proof.
  apply (log_matches_flag (Some "demo") Sample.dividend Sample.offline).
  reflexivity.
Defined.

(** A handler consults the upstream in its request only. *)
Lemma handler_decided_by_request tool req bag apiKey u1 u2 :
  arguments (params req) = Some bag ->
  requestOf tool bag apiKey u1 = requestOf tool bag apiKey u2 ->
  handlerOf tool req apiKey u1 = handlerOf tool req apiKey u2.
Proof.
  intros Hb Hreq.
  rewrite !(handler_with_bag _ _ _ _ _ Hb).
  destruct (tryOf_request tool bag apiKey) as (k & Hk & _ & Htry).
  unfold tryCatch. rewrite !Htry.
  rewrite (bind_pure _ _ u1 nowhere Hk), (bind_pure _ _ u2 nowhere Hk).
  rewrite <- Hreq.
  destruct (match snd (requestOf tool bag apiKey u1) with
            | Returned a => snd (k a nowhere)
            | Threw e => Threw e
            end) as [a | e]; [reflexivity |].
  destruct (catchOf_logs tool bag e) as (o & Ho & _).
  rewrite (Ho u1), (Ho u2). reflexivity.
Qed.

Lemma fetch_at_url url s u1 u2 :
  url = Returned s -> u1 s = u2 s -> fetch url u1 = fetch url u2.
Proof.
  intros -> H. unfold fetch, tryCatch, bind, lift, axiosGet. cbn.
  rewrite H. reflexivity.
Qed.

Ltac own_arguments :=
  unfold argument;
  repeat match goal with
         | Hk : lookup _ _ = Some _ |- _ => rewrite Hk; clear Hk
         end.

(** ** The dispatcher and the registry *)

Lemma listed_names :
  map Listing.name Listing.tools
  = [toolName Ohlcv; toolName Dividend; toolName Holdings;
     toolName ExchangeRate].
Proof. reflexivity. Qed.

(** The names [listToolsHandler] advertises are those the dispatcher
    serves: with the key set, a request for an advertised name is answered
    by that tool's handler, given the request and the key unchanged, and a
    request for any other name by [Tool <name> not found.]; the static
    [toolDefinitions] carry the same four names. *)
Theorem listed_tools_are_served :
  forall env req upstream,
    keyMissing env = false ->
    (In (name (params req)) (map Listing.name Listing.tools) ->
     exists tool,
       toolName tool = name (params req)
       /\ callToolHandler env req upstream
          = handlerOf tool req (keyOf env) upstream)
    /\ (~ In (name (params req)) (map Listing.name Listing.tools) ->
        callToolHandler env req upstream
        = ([], Returned (errorResult
                 ("Tool " ++ name (params req) ++ " not found."))))
    /\ map fst Registry.toolDefinitions = map Listing.name Listing.tools.
Proof.
  intros env req upstream Hkey. rewrite listed_names.
  split; [| split; [| reflexivity]].
  - intros Hin.
    assert (Ht : exists tool, toolName tool = name (params req)).
    { destruct Hin as [H | [H | [H | [H | []]]]]; eauto. }
    destruct Ht as (tool & Ht). exists tool. split; [exact Ht |].
    rewrite (callToolHandler_dispatch env req tool Hkey (eq_sym Ht)).
    reflexivity.
  - intros Hout.
    assert (Hname : forall t, name (params req) <> toolName t).
    { intros t E. apply Hout. rewrite E. destruct t; cbn; auto. }
    unfold callToolHandler. rewrite Hkey.
    pose proof (toolName_eqb_false _ Ohlcv Hname) as H1.
    pose proof (toolName_eqb_false _ Dividend Hname) as H2.
    pose proof (toolName_eqb_false _ Holdings Hname) as H3.
    pose proof (toolName_eqb_false _ ExchangeRate Hname) as H4.
    cbn [toolName] in H1, H2, H3, H4.
    cbv zeta. rewrite H1, H2, H3, H4. reflexivity.
Qed.

Lemma listed_tools_are_served_witness :
  (In "get_etf_holdings" (map Listing.name Listing.tools) ->
   exists tool,
     toolName tool = "get_etf_holdings"
     /\ callToolHandler (Some "demo") Fixture.holdings
          (Sample.serving Fixture.profile)
        = handlerOf tool Fixture.holdings "demo"
            (Sample.serving Fixture.profile))
  /\ (~ In "get_etf_holdings" (map Listing.name Listing.tools) ->
      callToolHandler (Some "demo") Fixture.holdings
        (Sample.serving Fixture.profile)
      = ([], Returned (errorResult "Tool get_etf_holdings not found.")))
  /\ map fst Registry.toolDefinitions = map Listing.name Listing.tools.
Proof.
  apply (listed_tools_are_served (Some "demo") Fixture.holdings
           (Sample.serving Fixture.profile)).
  reflexivity.
Defined.

(** A handler reads from the bag only the arguments that its tool
    definition declares as required: two requests whose bags agree on
    those are answered alike, whatever else the bags hold. *)
Theorem declared_arguments_suffice :
  forall tool definition req1 req2 bag1 bag2 apiKey upstream,
    Registry.find (toolName tool) Registry.toolDefinitions = Some definition ->
    arguments (params req1) = Some bag1 ->
    arguments (params req2) = Some bag2 ->
    (forall k,
       In k (Registry.required (Registry.inputSchema definition)) ->
       lookup k bag1 = lookup k bag2) ->
    handlerOf tool req1 apiKey upstream = handlerOf tool req2 apiKey upstream.
Proof.
  intros tool definition req1 req2 bag1 bag2 apiKey upstream
         Hdef Hb1 Hb2 Hsame.
  rewrite (handler_with_bag _ _ _ _ _ Hb1), (handler_with_bag _ _ _ _ _ Hb2).
  destruct tool; cbn in Hdef; inversion Hdef; subst definition;
    cbn in Hsame; cbn [tryOf catchOf]; unfold argument;
    repeat match goal with
           | |- context [lookup ?k bag1] =>
               rewrite (Hsame k) by (cbn; auto 6)
           end;
    reflexivity.
Qed.

Lemma declared_arguments_suffice_witness :
  handleGetTickerDividend Sample.dividend "demo"
    (Sample.serving Sample.dividends)
  = handleGetTickerDividend Fixture.padded "demo"
      (Sample.serving Sample.dividends).
Proof.
  apply (declared_arguments_suffice Dividend
           Registry.getTickerDividendDefinition Sample.dividend
           Fixture.padded [("ticker", JStr "AAPL")]
           [("ticker", JStr "AAPL"); ("date", JStr "2024-01-02");
            ("verbose", JBool true)]);
    try reflexivity.
  intros k [<- | []]. reflexivity.
Defined.

(** A call to a registered tool that leaves the arguments out is not
    answered with a result: the dispatcher throws a [TypeError], before
    any request or log line. *)
Theorem registered_tool_needs_arguments :
  forall env req tool upstream,
    keyMissing env = false ->
    name (params req) = toolName tool ->
    arguments (params req) = None ->
    exists property,
      callToolHandler env req upstream
      = ([], Threw (TypeError
               ("Cannot destructure property '" ++ property
                ++ "' of 'req.params.arguments' as it is undefined."))).
Proof.
  intros env req tool upstream Hkey Hname Hb.
  rewrite (callToolHandler_dispatch env req tool Hkey Hname).
  destruct tool; cbn [handlerOf];
    unfold handleGetTickerOhlcv, handleGetTickerDividend,
           handleGetEtfHoldings, handleGetExchangeRate, argumentBag;
    rewrite Hb; rewrite bind_lift_threw; eexists; reflexivity.
Qed.

Lemma registered_tool_needs_arguments_witness :
  exists property,
    callToolHandler (Some "demo") Sample.bare
      (Sample.serving Sample.dividends)
    = ([], Threw (TypeError
             ("Cannot destructure property '" ++ property
              ++ "' of 'req.params.arguments' as it is undefined."))).
Proof.
  apply (registered_tool_needs_arguments (Some "demo") Sample.bare Dividend);
    reflexivity.
Defined.

(** ** When an invocation returns *)

Lemma inherited_renders p k : renders (inherited p k).
Proof.
  unfold inherited, renders.
  destruct (k =? "__proto__"); [destruct p; eexists; reflexivity |].
  destruct (inList k (members p)); [eexists; reflexivity |].
  destruct (inList k (members ObjectProto)); eexists; reflexivity.
Qed.

Lemma lookup_allStrings bag k x :
  allStrings bag -> lookup k bag = Some x -> exists s, x = JStr s.
Proof.
  induction 1 as [| [k' v] bag Hv _ IH]; cbn; [discriminate |].
  destruct (k' =? k); [| exact IH].
  intros E. inversion E; subst. exact Hv.
Qed.

Lemma string_bag_renders bag k : allStrings bag -> renders (argument bag k).
Proof.
  intros Hbag. unfold argument.
  destruct (lookup k bag) as [x |] eqn:E.
  - destruct (lookup_allStrings _ _ _ Hbag E) as (s & ->).
    apply strings_render.
  - apply inherited_renders.
Qed.

Lemma handler_returns tool req bag apiKey upstream :
  arguments (params req) = Some bag ->
  Forall (fun k => renders (argument bag k)) (printedOnFailure tool) ->
  exists trace result,
    handlerOf tool req apiKey upstream = (trace, Returned result)
    /\ isEnvelope result.
Proof.
  intros Hb Hr. rewrite (handler_with_bag _ _ _ _ _ Hb). unfold tryCatch.
  destruct (tryOf tool bag apiKey upstream) as [t1 [r | e]] eqn:E.
  - exists t1, r. split; [reflexivity |].
    exact (tryOf_enveloped _ _ _ _ _ _ E).
  - destruct (catch_returns tool bag e upstream Hr) as (message & ->).
    eexists. eexists. split; [reflexivity |]. exists message. now left.
Qed.

(** With the key set and a bag whose values are all strings, the
    dispatcher answers every request - registered name or not, whatever
    the upstream does - with a result of one text item, and throws
    nothing. *)
Theorem string_arguments_are_answered :
  forall env req bag upstream,
    keyMissing env = false ->
    arguments (params req) = Some bag ->
    allStrings bag ->
    exists trace result,
      callToolHandler env req upstream = (trace, Returned result)
      /\ isEnvelope result.
Proof.
  intros env req bag upstream Hkey Hb Hbag.
  assert (H : forall tool, exists trace result,
            handlerOf tool req (keyOf env) upstream = (trace, Returned result)
            /\ isEnvelope result).
  { intros tool. apply (handler_returns tool req bag); [exact Hb |].
    apply Forall_forall. intros k _. now apply string_bag_renders. }
  unfold callToolHandler. rewrite Hkey. cbv zeta.
  destruct (_ =? "get_ticker_ohlcv"); [exact (H Ohlcv) |].
  destruct (_ =? "get_ticker_dividend"); [exact (H Dividend) |].
  destruct (_ =? "get_etf_holdings"); [exact (H Holdings) |].
  destruct (_ =? "get_exchange_rate"); [exact (H ExchangeRate) |].
  eexists. eexists. split; [reflexivity |]. eexists. now left.
Qed.

Lemma string_arguments_are_answered_witness :
  exists trace result,
    callToolHandler (Some "demo") (Sample.ohlcv "close" "")
      (Sample.serving Sample.note)
    = (trace, Returned result)
    /\ isEnvelope result.
Proof.
  apply (string_arguments_are_answered (Some "demo") (Sample.ohlcv "close" "")
           [("ticker", JStr "AAPL"); ("infoType", JStr "close");
            ("date", JStr "")]);
    try reflexivity.
  repeat constructor; eexists; reflexivity.
Defined.

Lemma unprintable_throws tool bag apiKey upstream :
  tool <> Ohlcv ->
  ~ Forall (fun k => renders (argument bag k)) (printedOnFailure tool) ->
  exists trace e,
    tryCatch (tryOf tool bag apiKey) (catchOf tool bag) upstream
    = (trace, Threw e).
Proof.
  intros Htool Hnot.
  destruct tool; [contradiction | | |];
    cbn [tryOf catchOf printedOnFailure] in *.
  1, 2:
    remember (argument bag "ticker") as ticker eqn:Ev;
    destruct (toString ticker) as [s | e] eqn:E;
    [ exfalso; apply Hnot; subst ticker;
      apply Forall_cons; [exists s; exact E | apply Forall_nil]
    | clear Ev; unfold tryCatch, dividendTry, holdingsTry, fetch, bind, lift,
             dividendUrl, holdingsUrl, dividendCatch, holdingsCatch,
             loggerError, throw, tryCatch;
      cbn [template obind]; rewrite E; cbn [obind];
      eexists; eexists; reflexivity ].
  remember (argument bag "fromCurrency") as from eqn:Ef.
  remember (argument bag "toCurrency") as to eqn:Et.
  unfold tryCatch, exchangeTry, bind, lift, exchangeUrl, exchangeCatch,
         loggerError.
  cbn [template obind].
  destruct (toString from) as [s1 | e1] eqn:E1; cbn [obind].
  - destruct (toString to) as [s2 | e2] eqn:E2; cbn [obind].
    + exfalso. apply Hnot. subst from to.
      apply Forall_cons; [exists s1; exact E1 |].
      apply Forall_cons; [exists s2; exact E2 | apply Forall_nil].
    + eexists; eexists; reflexivity.
  - eexists; eexists; reflexivity.
Qed.

(** For the dividend, holdings and exchange-rate handlers the condition is
    exact: the handler returns a result if and only if the argument bag is
    present and the arguments its failure message prints convert to
    strings; in every other case it throws. *)
Theorem returns_iff_printable :
  forall tool req apiKey upstream,
    tool <> Ohlcv ->
    (exists trace result,
       handlerOf tool req apiKey upstream = (trace, Returned result))
    <-> (exists bag,
           arguments (params req) = Some bag
           /\ Forall (fun k => renders (argument bag k))
                     (printedOnFailure tool)).
Proof.
  intros tool req apiKey upstream Htool. split.
  - intros (trace & result & Hrun).
    destruct (arguments (params req)) as [bag |] eqn:Hb.
    + exists bag. split; [reflexivity |].
      destruct (Forall_dec (fun k => renders (argument bag k))) with
        (l := printedOnFailure tool) as [Hall | Hnot]; [| exact Hall |].
      * intros k. unfold renders.
        destruct (toString (argument bag k)) as [s | e];
          [left; eauto | right; intros (s & H); discriminate H].
      * exfalso.
        destruct (unprintable_throws tool bag apiKey upstream Htool Hnot)
          as (t & e & Hthrow).
        rewrite (handler_with_bag _ _ _ _ _ Hb), Hthrow in Hrun.
        discriminate Hrun.
    + destruct (handler_without_arguments tool req apiKey upstream Hb)
        as (e & Hthrow).
      rewrite Hthrow in Hrun. discriminate Hrun.
  - intros (bag & Hb & Hr).
    destruct (handler_returns tool req bag apiKey upstream Hb Hr)
      as (trace & result & Hrun & _).
    eauto.
Qed.

Lemma returns_iff_printable_witness :
  (exists trace result,
     handleGetEtfHoldings Fixture.holdings "demo" Sample.offline
     = (trace, Returned result))
  <-> (exists bag,
         arguments (params Fixture.holdings) = Some bag
         /\ Forall (fun k => renders (argument bag k)) ["ticker"]).
Proof.
  apply (returns_iff_printable Holdings Fixture.holdings "demo"
           Sample.offline).
  discriminate.
Defined.

(** ** The holdings handler *)

Lemma holdingsUrl_string (t key : string) :
  holdingsUrl (str t) key = Returned (holdingsUrlOf t key).
Proof.
  unfold holdingsUrl, holdingsUrlOf. simpl. rewrite append_empty. reflexivity.
Qed.

Lemma holdings_string_arguments req key u t :
  stringArgument req "ticker" t ->
  handleGetEtfHoldings req key u = holdingsWith (str t) key u.
Proof. intros Ht. same_bag. read_arguments. reflexivity. Qed.

Lemma holding_lines items records :
  Forall2 isHoldingRecord items records ->
  mapItems holdingLine items = Returned (map holdingLineOf records).
Proof.
  induction 1 as [| item r items records (props & -> & Hd & Hs & Hw) _ IH].
  - reflexivity.
  - cbn [mapItems map]. rewrite IH.
    unfold holdingLine, holdingLineOf. cbn [getProp]. rewrite Hd, Hs, Hw.
    simpl. rewrite append_empty. reflexivity.
Qed.

(** For a string ticker and a resolved request: when ["holdings"] is an
    array of records, each with a string description, symbol and weight,
    the result is not error-flagged and its text is
    [Holdings for <ticker>:], a line break, and the lines
    [Holding: <description> (<symbol>), Weight: <weight>] joined by line
    breaks; for an empty array it is the header and its line break. *)
Theorem holdings_rendering :
  forall req apiKey upstream t resp items records,
    stringArgument req "ticker" t ->
    upstream (holdingsUrlOf t apiKey) = Resolved resp ->
    getProp (data resp) "holdings" = Returned (VJson (JArr items)) ->
    Forall2 isHoldingRecord items records ->
    handleGetEtfHoldings req apiKey upstream
    = ([HttpGet (holdingsUrlOf t apiKey)],
       Returned (textResult
         ("Holdings for " ++ t ++ ":" ++ newline
          ++ joinLines (map holdingLineOf records))))
    /\ (items = [] ->
        handleGetEtfHoldings req apiKey upstream
        = ([HttpGet (holdingsUrlOf t apiKey)],
           Returned (textResult ("Holdings for " ++ t ++ ":" ++ newline)))).
Proof.
  intros req apiKey upstream t resp items records Ht Hup Hdata Hrecs.
  assert (Hrun : handleGetEtfHoldings req apiKey upstream
                 = ([HttpGet (holdingsUrlOf t apiKey)],
                    Returned (textResult
                      ("Holdings for " ++ t ++ ":" ++ newline
                       ++ joinLines (map holdingLineOf records))))).
  { rewrite (holdings_string_arguments _ _ _ _ Ht).
    unfold holdingsWith. apply tryCatch_returned. unfold holdingsTry.
    rewrite (bind_returned _ _ _ _ _
               (fetch_resolved _ _ _ _ (holdingsUrl_string t apiKey) Hup)).
    rewrite Hdata, bind_lift_returned. cbn [truthy negb].
    unfold arrayMap. cbn [getProp obind].
    change (if "map" =? "length" then _ else _) with (VFunction "map").
    cbv iota. rewrite (holding_lines _ _ Hrecs), bind_lift_returned.
    simpl. rewrite append_empty. reflexivity. }
  split; [exact Hrun |].
  intros ->. inversion Hrecs; subst. rewrite Hrun. reflexivity.
Qed.

Lemma holdings_rendering_witness :
  handleGetEtfHoldings Fixture.holdings "demo"
    (Sample.serving Fixture.profile)
  = ([HttpGet (holdingsUrlOf "SPY" "demo")],
     Returned (textResult
       ("Holdings for SPY:" ++ newline
        ++ "Holding: MICROSOFT CORP (MSFT), Weight: 0.0712" ++ newline
        ++ "Holding: APPLE INC (AAPL), Weight: 0.0698"))).
Proof.
  refine (proj1
    (holdings_rendering Fixture.holdings "demo"
       (Sample.serving Fixture.profile) "SPY" Fixture.profile
       Fixture.positions
       [("MICROSOFT CORP", "MSFT", "0.0712"); ("APPLE INC", "AAPL", "0.0698")]
       _ _ _ _)).
  - eexists; split; reflexivity.
  - reflexivity.
  - reflexivity.
  - repeat constructor; eexists; repeat split; reflexivity.
Defined.

(** ** Payloads that are missing, falsy, or of another shape *)

(** The three handlers that test their payload with [!x] answer alike for
    a payload that is missing and for one that is present but falsy
    ([null], [false], [0], the empty string): the error-flagged no-data
    text, after one request and without a log line. *)
Theorem falsy_payload_is_no_data :
  forall apiKey upstream resp,
    (forall req t payload,
       stringArgument req "ticker" t ->
       upstream (dividendUrlOf t apiKey) = Resolved resp ->
       getProp (data resp) "data" = Returned payload ->
       truthy payload = false ->
       handleGetTickerDividend req apiKey upstream
       = ([HttpGet (dividendUrlOf t apiKey)],
          Returned (errorResult
            ("No dividend data found for " ++ t ++ "."))))
    /\ (forall req t payload,
          stringArgument req "ticker" t ->
          upstream (holdingsUrlOf t apiKey) = Resolved resp ->
          getProp (data resp) "holdings" = Returned payload ->
          truthy payload = false ->
          handleGetEtfHoldings req apiKey upstream
          = ([HttpGet (holdingsUrlOf t apiKey)],
             Returned (errorResult
               ("No holdings data found for " ++ t ++ "."))))
    /\ (forall req f t payload,
          stringArgument req "fromCurrency" f ->
          stringArgument req "toCurrency" t ->
          upstream (exchangeUrlOf f t apiKey) = Resolved resp ->
          getProp (data resp) "Realtime Currency Exchange Rate"
            = Returned payload ->
          truthy payload = false ->
          handleGetExchangeRate req apiKey upstream
          = ([HttpGet (exchangeUrlOf f t apiKey)],
             Returned (errorResult
               ("Could not retrieve exchange rate for " ++ f ++ " to " ++ t
                ++ ".")))).
Proof.
  intros apiKey upstream resp. split; [| split].
  - intros req t payload Ht Hup Hdata Hfalsy.
    rewrite (dividend_string_arguments _ _ _ _ Ht).
    unfold dividendWith. apply tryCatch_returned. unfold dividendTry.
    rewrite (bind_returned _ _ _ _ _
               (fetch_resolved _ _ _ _ (dividendUrl_string t apiKey) Hup)).
    rewrite Hdata, bind_lift_returned, Hfalsy. simpl. reflexivity.
  - intros req t payload Ht Hup Hdata Hfalsy.
    rewrite (holdings_string_arguments _ _ _ _ Ht).
    unfold holdingsWith. apply tryCatch_returned. unfold holdingsTry.
    rewrite (bind_returned _ _ _ _ _
               (fetch_resolved _ _ _ _ (holdingsUrl_string t apiKey) Hup)).
    rewrite Hdata, bind_lift_returned, Hfalsy. simpl. reflexivity.
  - intros req f t payload Hf Ht Hup Hdata Hfalsy.
    rewrite (exchange_string_arguments _ _ _ _ _ Hf Ht).
    unfold exchangeWith. apply tryCatch_returned. unfold exchangeTry.
    rewrite exchangeUrl_string, bind_lift_returned.
    unfold bind at 1, axiosGet at 1. rewrite Hup.
    rewrite Hdata, bind_lift_returned, Hfalsy. simpl. reflexivity.
Qed.

Lemma falsy_payload_is_no_data_witness :
  handleGetTickerDividend Sample.dividend "demo"
    (Sample.serving Fixture.nulls)
  = ([HttpGet (dividendUrlOf "AAPL" "demo")],
     Returned (errorResult "No dividend data found for AAPL."))
  /\ handleGetEtfHoldings Fixture.holdings "demo"
       (Sample.serving Fixture.nulls)
     = ([HttpGet (holdingsUrlOf "SPY" "demo")],
        Returned (errorResult "No holdings data found for SPY."))
  /\ handleGetExchangeRate Sample.exchange "demo"
       (Sample.serving Fixture.nulls)
     = ([HttpGet (exchangeUrlOf "USD" "EUR" "demo")],
        Returned (errorResult
          "Could not retrieve exchange rate for USD to EUR.")).
Proof.
  destruct (falsy_payload_is_no_data "demo" (Sample.serving Fixture.nulls)
              Fixture.nulls) as (Hd & Hh & He).
  split; [| split].
  - apply (Hd Sample.dividend "AAPL" (VJson JNull)); try reflexivity.
    eexists; split; reflexivity.
  - apply (Hh Fixture.holdings "SPY" (VJson JNull)); try reflexivity.
    eexists; split; reflexivity.
  - apply (He Sample.exchange "USD" "EUR" (VJson JNull)); try reflexivity;
      eexists; split; reflexivity.
Defined.

(** On a truthy JSON value that is no array, [.map] is no function. *)
Lemma arrayMap_not_array subject (j : Json) f :
  truthy (VJson j) = true ->
  (forall items, j <> JArr items) ->
  arrayMap subject (VJson j) f
  = Threw (TypeError (subject ++ ".map is not a function")).
Proof.
  intros Htruthy Hshape. unfold arrayMap.
  destruct j as [| b | n | s | items | props]; cbn [getProp obind].
  - discriminate Htruthy.
  - reflexivity.
  - reflexivity.
  - reflexivity.
  - destruct (Hshape items eq_refl).
  - destruct (lookup "map" props); reflexivity.
Qed.

(** When the payload of the dividend or of the holdings response is
    truthy but no array (an object, a string, a number, [true]), the call
    of [.map] throws inside the [try]; the error is logged and the result
    is the error-flagged failure text carrying
    [<variable>.map is not a function]. *)
Theorem non_array_payload_is_caught :
  forall apiKey upstream resp,
    (forall req t payload,
       stringArgument req "ticker" t ->
       upstream (dividendUrlOf t apiKey) = Resolved resp ->
       getProp (data resp) "data" = Returned (VJson payload) ->
       truthy (VJson payload) = true ->
       (forall items, payload <> JArr items) ->
       handleGetTickerDividend req apiKey upstream
       = ([HttpGet (dividendUrlOf t apiKey);
           LogError (TypeError "dividendHistory.map is not a function")],
          Returned (errorResult
            ("Failed to get the dividend data for " ++ t
             ++ ". Error: dividendHistory.map is not a function"))))
    /\ (forall req t payload,
          stringArgument req "ticker" t ->
          upstream (holdingsUrlOf t apiKey) = Resolved resp ->
          getProp (data resp) "holdings" = Returned (VJson payload) ->
          truthy (VJson payload) = true ->
          (forall items, payload <> JArr items) ->
          handleGetEtfHoldings req apiKey upstream
          = ([HttpGet (holdingsUrlOf t apiKey);
              LogError (TypeError "holdingsData.map is not a function")],
             Returned (errorResult
               ("Failed to get the holdings data for " ++ t
                ++ ". Error: holdingsData.map is not a function")))).
Proof.
  intros apiKey upstream resp. split.
  - intros req t payload Ht Hup Hdata Htruthy Hshape.
    rewrite (dividend_string_arguments _ _ _ _ Ht).
    assert (Hbody : dividendTry (str t) apiKey upstream
              = ([HttpGet (dividendUrlOf t apiKey)],
                 Threw (TypeError "dividendHistory.map is not a function"))).
    { unfold dividendTry.
      rewrite (bind_returned _ _ _ _ _
                 (fetch_resolved _ _ _ _ (dividendUrl_string t apiKey) Hup)).
      rewrite Hdata, bind_lift_returned, Htruthy. cbn [negb].
      rewrite (arrayMap_not_array _ _ _ Htruthy Hshape), bind_lift_threw.
      reflexivity. }
    unfold dividendWith. rewrite (tryCatch_threw _ _ _ _ _ Hbody).
    simpl. reflexivity.
  - intros req t payload Ht Hup Hdata Htruthy Hshape.
    rewrite (holdings_string_arguments _ _ _ _ Ht).
    assert (Hbody : holdingsTry (str t) apiKey upstream
              = ([HttpGet (holdingsUrlOf t apiKey)],
                 Threw (TypeError "holdingsData.map is not a function"))).
    { unfold holdingsTry.
      rewrite (bind_returned _ _ _ _ _
                 (fetch_resolved _ _ _ _ (holdingsUrl_string t apiKey) Hup)).
      rewrite Hdata, bind_lift_returned, Htruthy. cbn [negb].
      rewrite (arrayMap_not_array _ _ _ Htruthy Hshape), bind_lift_threw.
      reflexivity. }
    unfold holdingsWith. rewrite (tryCatch_threw _ _ _ _ _ Hbody).
    simpl. reflexivity.
Qed.

Lemma non_array_payload_is_caught_witness :
  handleGetTickerDividend Sample.dividend "demo"
    (Sample.serving Fixture.keyed)
  = ([HttpGet (dividendUrlOf "AAPL" "demo");
      LogError (TypeError "dividendHistory.map is not a function")],
     Returned (errorResult
       "Failed to get the dividend data for AAPL. Error: dividendHistory.map is not a function"))
  /\ handleGetEtfHoldings Fixture.holdings "demo"
       (Sample.serving Fixture.keyed)
     = ([HttpGet (holdingsUrlOf "SPY" "demo");
         LogError (TypeError "holdingsData.map is not a function")],
        Returned (errorResult
          "Failed to get the holdings data for SPY. Error: holdingsData.map is not a function")).
Proof.
  destruct (non_array_payload_is_caught "demo" (Sample.serving Fixture.keyed)
              Fixture.keyed) as (Hd & Hh).
  split.
  - apply (Hd Sample.dividend "AAPL" (JObj [("2024-02-09", JStr "0.24")]));
      try reflexivity; [eexists; split; reflexivity | discriminate].
  - apply (Hh Fixture.holdings "SPY" (JStr "n/a"));
      try reflexivity; [eexists; split; reflexivity | discriminate].
Defined.

(** ** The exchange-rate handler, when the rate is there *)

(** For string currencies, a resolved request and a rate object whose
    ["5. Exchange Rate"] is the string [rate], the result is not
    error-flagged and its text is
    [The exchange rate from <from> to <to> is <rate>], the string copied
    as it is. *)
Theorem exchange_success_text :
  forall req apiKey upstream f t resp object rate,
    stringArgument req "fromCurrency" f ->
    stringArgument req "toCurrency" t ->
    upstream (exchangeUrlOf f t apiKey) = Resolved resp ->
    getProp (data resp) "Realtime Currency Exchange Rate"
      = Returned (VJson (JObj object)) ->
    lookup "5. Exchange Rate" object = Some (JStr rate) ->
    handleGetExchangeRate req apiKey upstream
    = ([HttpGet (exchangeUrlOf f t apiKey)],
       Returned (textResult
         ("The exchange rate from " ++ f ++ " to " ++ t ++ " is " ++ rate))).
Proof.
  intros req apiKey upstream f t resp object rate Hf Ht Hup Hdata Hrate.
  rewrite (exchange_string_arguments _ _ _ _ _ Hf Ht).
  unfold exchangeWith. apply tryCatch_returned. unfold exchangeTry.
  rewrite exchangeUrl_string, bind_lift_returned.
  unfold bind at 1, axiosGet at 1. rewrite Hup.
  rewrite Hdata, bind_lift_returned. cbn [truthy negb getProp].
  rewrite Hrate, bind_lift_returned.
  simpl. rewrite append_empty. reflexivity.
Qed.

Lemma exchange_success_text_witness :
  handleGetExchangeRate Sample.exchange "demo"
    (Sample.serving Fixture.rate)
  = ([HttpGet (exchangeUrlOf "USD" "EUR" "demo")],
     Returned (textResult "The exchange rate from USD to EUR is 0.9123")).
Proof.
  apply (exchange_success_text Sample.exchange "demo"
           (Sample.serving Fixture.rate) "USD" "EUR" Fixture.rate
           [("1. From_Currency Code", JStr "USD");
            ("3. To_Currency Code", JStr "EUR");
            ("5. Exchange Rate", JStr "0.9123")] "0.9123");
    try reflexivity; eexists; split; reflexivity.
Defined.

(** ** Rejected requests *)

Lemma bind_threw {A B} (m : M A) (k : A -> M B) (u : Upstream) t e :
  m u = (t, Threw e) -> bind m k u = (t, Threw e).
Proof. intros H. unfold bind. rewrite H. reflexivity. Qed.

(** In the OHLCV, dividend and holdings handlers a rejected request is
    logged, wrapped in a fresh [Error] and logged again by the outer
    [catch]; the failure text therefore carries the rendering
    [<name>: <message>] of the original error, not its bare message.
    Nothing is retried. *)
Theorem rejected_request_is_wrapped :
  forall apiKey upstream t e,
    (forall req i d,
       stringArgument req "ticker" t ->
       stringArgument req "infoType" i ->
       stringArgument req "date" d ->
       upstream (ohlcvUrlOf t apiKey) = Rejected e ->
       handleGetTickerOhlcv req apiKey upstream
       = ([HttpGet (ohlcvUrlOf t apiKey); LogError e;
           LogError (newErrorFrom e)],
          Returned (errorResult
            ("Failed to get the " ++ i ++ " price for " ++ t ++ ". Error: "
             ++ errorToString e))))
    /\ (forall req,
          stringArgument req "ticker" t ->
          upstream (dividendUrlOf t apiKey) = Rejected e ->
          handleGetTickerDividend req apiKey upstream
          = ([HttpGet (dividendUrlOf t apiKey); LogError e;
              LogError (newErrorFrom e)],
             Returned (errorResult
               ("Failed to get the dividend data for " ++ t ++ ". Error: "
                ++ errorToString e))))
    /\ (forall req,
          stringArgument req "ticker" t ->
          upstream (holdingsUrlOf t apiKey) = Rejected e ->
          handleGetEtfHoldings req apiKey upstream
          = ([HttpGet (holdingsUrlOf t apiKey); LogError e;
              LogError (newErrorFrom e)],
             Returned (errorResult
               ("Failed to get the holdings data for " ++ t ++ ". Error: "
                ++ errorToString e)))).
Proof.
  intros apiKey upstream t e. split; [| split].
  - intros req i d Ht Hi Hd Hup.
    rewrite (ohlcv_string_arguments _ _ _ _ _ _ Ht Hi Hd).
    unfold ohlcvWith, ohlcvTry, tryCatch.
    rewrite (bind_threw _ _ _ _ _
               (fetch_rejected _ _ _ _ (ohlcvUrl_string t apiKey) Hup)).
    simpl. rewrite append_empty. reflexivity.
  - intros req Ht Hup.
    rewrite (dividend_string_arguments _ _ _ _ Ht).
    unfold dividendWith, dividendTry, tryCatch.
    rewrite (bind_threw _ _ _ _ _
               (fetch_rejected _ _ _ _ (dividendUrl_string t apiKey) Hup)).
    simpl. rewrite append_empty. reflexivity.
  - intros req Ht Hup.
    rewrite (holdings_string_arguments _ _ _ _ Ht).
    unfold holdingsWith, holdingsTry, tryCatch.
    rewrite (bind_threw _ _ _ _ _
               (fetch_rejected _ _ _ _ (holdingsUrl_string t apiKey) Hup)).
    simpl. rewrite append_empty. reflexivity.
Qed.

Lemma rejected_request_is_wrapped_witness :
  handleGetTickerOhlcv (Sample.ohlcv "close" "2024-01-02") "demo"
    Sample.offline
  = ([HttpGet (ohlcvUrlOf "AAPL" "demo"); LogError Fixture.refused;
      LogError (newErrorFrom Fixture.refused)],
     Returned (errorResult
       "Failed to get the close price for AAPL. Error: AxiosError: Network Error")).
Proof.
  apply (proj1 (rejected_request_is_wrapped "demo" Sample.offline "AAPL"
                  Fixture.refused)
           (Sample.ohlcv "close" "2024-01-02") "close" "2024-01-02");
    try reflexivity; eexists; split; reflexivity.
Defined.

(** The exchange-rate handler has no inner [try]: a rejected request
    reaches the [catch] as it is, is logged once, and the failure text
    carries the bare message of the error. *)
Theorem rejected_exchange_is_not_wrapped :
  forall req apiKey upstream f t e,
    stringArgument req "fromCurrency" f ->
    stringArgument req "toCurrency" t ->
    upstream (exchangeUrlOf f t apiKey) = Rejected e ->
    handleGetExchangeRate req apiKey upstream
    = ([HttpGet (exchangeUrlOf f t apiKey); LogError e],
       Returned (errorResult
         ("Failed to get the exchange rate for " ++ f ++ " to " ++ t
          ++ ". Error: " ++ errMessage e))).
Proof.
  intros req apiKey upstream f t e Hf Ht Hup.
  rewrite (exchange_string_arguments _ _ _ _ _ Hf Ht).
  unfold exchangeWith, exchangeTry, tryCatch.
  rewrite exchangeUrl_string, bind_lift_returned.
  unfold bind at 1, axiosGet at 1. rewrite Hup.
  simpl. rewrite append_empty. reflexivity.
Qed.

Lemma rejected_exchange_is_not_wrapped_witness :
  handleGetExchangeRate Sample.exchange "demo" Sample.offline
  = ([HttpGet (exchangeUrlOf "USD" "EUR" "demo"); LogError Fixture.refused],
     Returned (errorResult
       "Failed to get the exchange rate for USD to EUR. Error: Network Error")).
Proof.
  apply (rejected_exchange_is_not_wrapped Sample.exchange "demo"
           Sample.offline "USD" "EUR" Fixture.refused);
    try reflexivity; eexists; split; reflexivity.
Defined.

(** ** Edge cases of the OHLCV handler *)

(** A record that is present but falsy ([null], [false], [0], the empty
    string) is treated as no record: the error-flagged
    [No data found for <ticker> on <actualDate>.] *)
Theorem falsy_record_is_no_data :
  forall req apiKey upstream t i d resp series a record,
    stringArgument req "ticker" t ->
    stringArgument req "infoType" i ->
    stringArgument req "date" d ->
    upstream (ohlcvUrlOf t apiKey) = Resolved resp ->
    getProp (data resp) "Time Series (Daily)"
      = Returned (VJson (JObj series)) ->
    resolveActualDate (str d) resp = Returned (str a) ->
    lookup a series = Some record ->
    truthy (VJson record) = false ->
    handleGetTickerOhlcv req apiKey upstream
    = ([HttpGet (ohlcvUrlOf t apiKey)],
       Returned (errorResult
         ("No data found for " ++ t ++ " on " ++ a ++ "."))).
Proof.
  intros req apiKey upstream t i d resp series a record
         Ht Hi Hd Hup Hseries Hres Hrec Hfalsy.
  rewrite (ohlcv_string_arguments _ _ _ _ _ _ Ht Hi Hd).
  unfold ohlcvWith. apply tryCatch_returned.
  after_fetch Hup.
  rewrite Hres, bind_lift_returned, Hseries, bind_lift_returned.
  unfold getIndex. cbn [toString jsonToString str obind].
  rewrite (getProp_object _ _ _ Hrec), bind_lift_returned, Hfalsy.
  simpl. reflexivity.
Qed.

Lemma falsy_record_is_no_data_witness :
  handleGetTickerOhlcv (Sample.ohlcv "close" "2024-01-02") "demo"
    (Sample.serving Fixture.holed)
  = ([HttpGet (ohlcvUrlOf "AAPL" "demo")],
     Returned (errorResult "No data found for AAPL on 2024-01-02.")).
Proof.
  apply (falsy_record_is_no_data (Sample.ohlcv "close" "2024-01-02") "demo"
           (Sample.serving Fixture.holed) "AAPL" "close" "2024-01-02"
           Fixture.holed [("2024-01-02", JNull)] "2024-01-02" JNull);
    try reflexivity; eexists; split; reflexivity.
Defined.

(** With the empty date and a series that has no key at all (the empty
    object, or an empty array, a number, a boolean, the empty string), the
    date resolves to [undefined], which is then used as the key
    ["undefined"]: the result is the error-flagged
    [No data found for <ticker> on undefined.] *)
Theorem empty_series_has_no_date :
  forall req apiKey upstream t i resp (series : Json),
    stringArgument req "ticker" t ->
    stringArgument req "infoType" i ->
    stringArgument req "date" "" ->
    upstream (ohlcvUrlOf t apiKey) = Resolved resp ->
    getProp (data resp) "Time Series (Daily)" = Returned (VJson series) ->
    objectKeys (VJson series) = Returned [] ->
    handleGetTickerOhlcv req apiKey upstream
    = ([HttpGet (ohlcvUrlOf t apiKey)],
       Returned (errorResult ("No data found for " ++ t ++ " on undefined."))).
Proof.
  intros req apiKey upstream t i resp series Ht Hi Hd Hup Hseries Hkeys.
  rewrite (ohlcv_string_arguments _ _ _ _ _ _ Ht Hi Hd).
  unfold ohlcvWith. apply tryCatch_returned.
  after_fetch Hup.
  unfold resolveActualDate.
  change (strictEqStr (str "") "") with true. cbv iota.
  rewrite Hseries. cbn [obind]. rewrite Hkeys. cbn [obind first].
  rewrite bind_lift_returned, bind_lift_returned.
  assert (Hget : getIndex (VJson series) VUndefined = Returned VUndefined).
  { destruct series as [| b | n | s | items | props]; cbn in Hkeys;
      try discriminate Hkeys; try reflexivity.
    inversion Hkeys as [Hn]. destruct props; [reflexivity | discriminate Hn]. }
  rewrite Hget, bind_lift_returned.
  simpl. reflexivity.
Qed.

Lemma empty_series_has_no_date_witness :
  handleGetTickerOhlcv (Sample.ohlcv "close" "") "demo"
    (Sample.serving Fixture.blank)
  = ([HttpGet (ohlcvUrlOf "AAPL" "demo")],
     Returned (errorResult "No data found for AAPL on undefined.")).
Proof.
  apply (empty_series_has_no_date (Sample.ohlcv "close" "") "demo"
           (Sample.serving Fixture.blank) "AAPL" "close" Fixture.blank
           (JObj []));
    try reflexivity; eexists; split; reflexivity.
Defined.

(** When the record at the resolved date is an object that lacks the field
    selected by [infoType], the lack is not detected: the result is not
    error-flagged and its text ends in [is undefined]. *)
Theorem missing_field_is_not_detected :
  forall req apiKey upstream t i d resp series a record field,
    stringArgument req "ticker" t ->
    stringArgument req "infoType" i ->
    stringArgument req "date" d ->
    upstream (ohlcvUrlOf t apiKey) = Resolved resp ->
    getProp (data resp) "Time Series (Daily)"
      = Returned (VJson (JObj series)) ->
    resolveActualDate (str d) resp = Returned (str a) ->
    lookup a series = Some (JObj record) ->
    fieldOf i = Some field ->
    lookup field record = None ->
    handleGetTickerOhlcv req apiKey upstream
    = ([HttpGet (ohlcvUrlOf t apiKey)],
       Returned (textResult
         ("The " ++ i ++ " for " ++ t ++ " on " ++ a ++ " is undefined"))).
Proof.
  intros req apiKey upstream t i d resp series a record field
         Ht Hi Hd Hup Hseries Hres Hrec Hfield Hnone.
  rewrite (ohlcv_string_arguments _ _ _ _ _ _ Ht Hi Hd).
  unfold ohlcvWith. apply tryCatch_returned.
  after_fetch Hup.
  rewrite Hres, bind_lift_returned, Hseries, bind_lift_returned.
  unfold getIndex. cbn [toString jsonToString str obind].
  rewrite (getProp_object _ _ _ Hrec), bind_lift_returned.
  cbn [truthy negb].
  destruct (fieldOf_cases _ _ Hfield)
    as [[-> ->] | [[-> ->] | [[-> ->] | [[-> ->] | [-> ->]]]]];
    simpl; rewrite Hnone; simpl; reflexivity.
Qed.

Lemma missing_field_is_not_detected_witness :
  handleGetTickerOhlcv (Sample.ohlcv "close" "2024-01-02") "demo"
    (Sample.serving Fixture.partial)
  = ([HttpGet (ohlcvUrlOf "AAPL" "demo")],
     Returned (textResult "The close for AAPL on 2024-01-02 is undefined")).
Proof.
  apply (missing_field_is_not_detected (Sample.ohlcv "close" "2024-01-02")
           "demo" (Sample.serving Fixture.partial) "AAPL" "close"
           "2024-01-02" Fixture.partial
           [("2024-01-02", JObj [("1. open", JStr "187.15")])]
           "2024-01-02" [("1. open", JStr "187.15")] "4. close");
    try reflexivity; eexists; split; reflexivity.
Defined.

(** ** The one endpoint of each handler *)

Ltac by_request tool :=
  same_bag;
  match goal with
  | Hb : arguments (params ?req) = Some ?bag |- _ =>
      apply (handler_decided_by_request tool req bag _ _ _ Hb)
  end;
  cbn [requestOf]; own_arguments.

(** Each handler consults the upstream at one URL, the endpoint of its own
    function with the ticker (or the two currencies) and the key, and
    nowhere else: two upstreams that give the same answer at that URL get
    the same events and the same outcome, whatever they answer at any
    other URL. *)
Theorem endpoint_alone_decides :
  forall apiKey u1 u2,
    (forall req t,
       stringArgument req "ticker" t ->
       u1 (ohlcvUrlOf t apiKey) = u2 (ohlcvUrlOf t apiKey) ->
       handleGetTickerOhlcv req apiKey u1
       = handleGetTickerOhlcv req apiKey u2)
    /\ (forall req t,
          stringArgument req "ticker" t ->
          u1 (dividendUrlOf t apiKey) = u2 (dividendUrlOf t apiKey) ->
          handleGetTickerDividend req apiKey u1
          = handleGetTickerDividend req apiKey u2)
    /\ (forall req t,
          stringArgument req "ticker" t ->
          u1 (holdingsUrlOf t apiKey) = u2 (holdingsUrlOf t apiKey) ->
          handleGetEtfHoldings req apiKey u1
          = handleGetEtfHoldings req apiKey u2)
    /\ (forall req f t,
          stringArgument req "fromCurrency" f ->
          stringArgument req "toCurrency" t ->
          u1 (exchangeUrlOf f t apiKey) = u2 (exchangeUrlOf f t apiKey) ->
          handleGetExchangeRate req apiKey u1
          = handleGetExchangeRate req apiKey u2).
Proof.
  intros apiKey u1 u2. split; [| split; [| split]].
  - intros req t Ht Hu. by_request Ohlcv.
    exact (fetch_at_url _ _ _ _ (ohlcvUrl_string t apiKey) Hu).
  - intros req t Ht Hu. by_request Dividend.
    exact (fetch_at_url _ _ _ _ (dividendUrl_string t apiKey) Hu).
  - intros req t Ht Hu. by_request Holdings.
    exact (fetch_at_url _ _ _ _ (holdingsUrl_string t apiKey) Hu).
  - intros req f t Hf Ht Hu. by_request ExchangeRate.
    change (VJson (JStr f)) with (str f). change (VJson (JStr t)) with (str t).
    rewrite exchangeUrl_string, !bind_lift_returned. unfold axiosGet.
    rewrite Hu. reflexivity.
Qed.

Lemma endpoint_alone_decides_witness :
  handleGetTickerDividend Sample.dividend "demo"
    (Sample.serving Sample.dividends)
  = handleGetTickerDividend Sample.dividend "demo"
      (fun url => if url =? dividendUrlOf "AAPL" "demo"
                  then Resolved Sample.dividends
                  else Rejected Fixture.refused).
Proof.
  apply (proj1 (proj2 (endpoint_alone_decides "demo"
                         (Sample.serving Sample.dividends)
                         (fun url => if url =? dividendUrlOf "AAPL" "demo"
                                     then Resolved Sample.dividends
                                     else Rejected Fixture.refused)))
           Sample.dividend "AAPL").
  - eexists; split; reflexivity.
  - reflexivity.
Defined.
